(* Shallow embedding of the LNXDrive Nautilus extension: its D-Bus client
   (src/nautilus-extension/src/lnxdrive-dbus-client.c), the info, menu and
   column providers (lnxdrive-info-provider.c, lnxdrive-menu-provider.c,
   lnxdrive-column-provider.c) and the module entry point
   (lnxdrive-extension.c).

   The GObject instance [LnxdriveDbusClient] becomes the record [client];
   every callback of the C file becomes a function from the client state (and
   the data GLib hands to the callback) to the new client state and the list
   of effects it performs.  D-Bus calls issued by the client are represented
   by the [call] structure: either the function finishes locally ([Done]) or
   it hands a method call to GDBus ([Remote]) together with the continuation
   that runs on the reply.  C strings are Rocq strings (D-Bus strings never
   contain NUL); a NULL [char *] is [None]. *)

From stdpp Require Import base gmap strings list.
From Stdlib Require Import Ascii String.

Open Scope string_scope.

(* ------------------------------------------------------------------------- *)
(** * GLib / GDBus data                                                       *)
(* ------------------------------------------------------------------------- *)

(** A [GError] as the client can receive it.  [IoError] carries a
    [G_IO_ERROR] code, [DBusRemoteError] an error returned by the peer with
    its D-Bus error name (what [g_dbus_error_get_remote_error] returns). *)
Inductive io_error_code :=
  | G_IO_ERROR_FAILED
  | G_IO_ERROR_NOT_CONNECTED
  | G_IO_ERROR_TIMED_OUT.

Inductive gerror :=
  | IoError (code : io_error_code) (message : string)
  | DBusRemoteError (name : string) (message : string).

Definition gerror_message (e : gerror) : string :=
  match e with
  | IoError _ m => m
  | DBusRemoteError _ m => m
  end.

(** [g_dbus_error_get_remote_error]: the D-Bus error name, or NULL. *)
Definition g_dbus_error_get_remote_error (e : gerror) : option string :=
  match e with
  | DBusRemoteError n _ => Some n
  | IoError _ _ => None
  end.

(** Result of a finished asynchronous or synchronous GDBus operation. *)
Inductive dbus_result (R : Type) :=
  | DOk (r : R)
  | DErr (e : gerror).
Arguments DOk {R} r.
Arguments DErr {R} e.

(** A [GDBusProxy] for [org.enigmora.LNXDrive] on the session bus, created
    with [G_DBUS_PROXY_FLAGS_DO_NOT_AUTO_START]; only its current name owner
    matters to the client. *)
Record dbus_proxy := mk_proxy { proxy_name_owner : option string }.

(* ------------------------------------------------------------------------- *)
(** * The client instance (struct _LnxdriveDbusClient)                        *)
(* ------------------------------------------------------------------------- *)

Record client := mk_client {
  files_proxy    : option dbus_proxy;
  status_cache   : gmap string string;   (* char *path -> char *status *)
  sync_root      : option string;        (* char *, NULL = None *)
  daemon_running : bool;
  invalidate_cb_set : bool;              (* invalidate_cb != NULL *)
}.

(** Effects a handler performs besides updating the instance. *)
Inductive effect :=
  | InvalidateDisplay
      (* self->invalidate_cb (self->invalidate_data) *)
  | FetchSyncRoot
      (* fetch_sync_root_async (self) *)
  | EmitFileStatusChanged (path status : string)
                          (cache_seen_by_handlers : gmap string string).
      (* g_signal_emit (..., "file-status-changed", path, status); the
         handlers run synchronously and see the cache at that moment *)

Definition invalidate_effects (c : client) : list effect :=
  if invalidate_cb_set c then [InvalidateDisplay] else [].

(** [lnxdrive_dbus_client_init]. *)
Definition client_init : client :=
  {| files_proxy := None;
     status_cache := ∅;
     sync_root := None;
     daemon_running := false;
     invalidate_cb_set := false |}.

Definition set_cache (c : client) (m : gmap string string) : client :=
  {| files_proxy := files_proxy c; status_cache := m; sync_root := sync_root c;
     daemon_running := daemon_running c; invalidate_cb_set := invalidate_cb_set c |}.

Definition set_running (c : client) (b : bool) : client :=
  {| files_proxy := files_proxy c; status_cache := status_cache c;
     sync_root := sync_root c; daemon_running := b;
     invalidate_cb_set := invalidate_cb_set c |}.

Definition set_sync_root (c : client) (s : option string) : client :=
  {| files_proxy := files_proxy c; status_cache := status_cache c;
     sync_root := s; daemon_running := daemon_running c;
     invalidate_cb_set := invalidate_cb_set c |}.

Definition set_proxy (c : client) (p : option dbus_proxy) : client :=
  {| files_proxy := p; status_cache := status_cache c;
     sync_root := sync_root c; daemon_running := daemon_running c;
     invalidate_cb_set := invalidate_cb_set c |}.

(* ------------------------------------------------------------------------- *)
(** * Status cache                                                            *)
(* ------------------------------------------------------------------------- *)

(** [invalidate_all_cache_entries]: every value replaced by "unknown" through
    [g_hash_table_iter_replace]; keys are kept. *)
Definition invalidate_all_cache_entries (c : client) : client :=
  set_cache c ((fun _ : string => "unknown") <$> status_cache c).

(** [lnxdrive_dbus_client_get_file_status]; [path = None] is a NULL path,
    rejected by [g_return_val_if_fail] with "unknown". *)
Definition lnxdrive_dbus_client_get_file_status (c : client) (path : option string)
  : string :=
  match path with
  | None => "unknown"
  | Some p =>
      if negb (daemon_running c) then "unknown"
      else match status_cache c !! p with
           | Some cached => cached
           | None => "unknown"
           end
  end.

(** [on_name_owner_changed]: GDBus has already updated the proxy's name owner
    to [owner] when it notifies "g-name-owner". *)
Definition on_name_owner_changed (c : client) (owner : option string)
  : client * list effect :=
  let c := set_proxy c (option_map (fun _ => mk_proxy owner) (files_proxy c)) in
  match owner with
  | None =>
      let c' := invalidate_all_cache_entries (set_running c false) in
      (c', invalidate_effects c')
  | Some _ =>
      let c' := set_running c true in
      (c', FetchSyncRoot :: invalidate_effects c')
  end.

(** [on_file_status_changed]: the (path, status) arguments of the
    FileStatusChanged D-Bus signal. *)
Definition on_file_status_changed (c : client) (path status : string)
  : client * list effect :=
  let c' := set_cache c (<[path := status]> (status_cache c)) in
  (c', EmitFileStatusChanged path status (status_cache c') :: invalidate_effects c').

(* ------------------------------------------------------------------------- *)
(** * Calls handed to GDBus                                                   *)
(* ------------------------------------------------------------------------- *)

(** A client operation either completes locally ([Done]) or passes a method
    call on [org.enigmora.LNXDrive.Files] to GDBus ([Remote]), with the
    arguments, the timeout in milliseconds and the code run on the reply. *)
Inductive call (R A : Type) :=
  | Done (a : A)
  | Remote (method : string) (args : list string) (timeout_ms : N)
           (k : dbus_result R -> A).
Arguments Done {R A} a.
Arguments Remote {R A} method args timeout_ms k.

Definition issues_remote_call {R A} (x : call R A) : bool :=
  match x with Done _ => false | Remote _ _ _ _ => true end.

(** What [g_dbus_proxy_call] (GLib, gdbusproxy.c) does before sending: a
    proxy for a well-known name that has no owner and was built with
    [G_DBUS_PROXY_FLAGS_DO_NOT_AUTO_START] has no destination, and the call
    fails locally with [G_IO_ERROR_FAILED]; otherwise the message is sent
    ([None]). *)
Definition g_dbus_proxy_call_local_failure (p : dbus_proxy) : option gerror :=
  match proxy_name_owner p with
  | Some _ => None
  | None =>
      Some (IoError G_IO_ERROR_FAILED
        ("Cannot invoke method; proxy is for the well-known name " +:+
         "org.enigmora.LNXDrive without an owner, and proxy was constructed " +:+
         "with the G_DBUS_PROXY_FLAGS_DO_NOT_AUTO_START flag"))
  end.

(* ------------------------------------------------------------------------- *)
(** * Batch status query (synchronous)                                        *)
(* ------------------------------------------------------------------------- *)

(** The loop over the "a{ss}" reply: each entry is put with
    [g_hash_table_replace] into the result table and into the cache. *)
Fixpoint batch_apply (entries : list (string * string))
    (result : gmap string string) (c : client) : gmap string string * client :=
  match entries with
  | [] => (result, c)
  | (key, value) :: rest =>
      batch_apply rest (<[key := value]> result)
                  (set_cache c (<[key := value]> (status_cache c)))
  end.

Definition proxy_is_null (c : client) : bool :=
  match files_proxy c with None => true | Some _ => false end.

(** [lnxdrive_dbus_client_get_batch_file_status]; [n_paths] is
    [length paths].  The call is synchronous, so the reply is applied to the
    same instance. *)
Definition lnxdrive_dbus_client_get_batch_file_status (c : client)
    (paths : list string)
  : call (list (string * string)) (gmap string string * client) :=
  if negb (daemon_running c) || proxy_is_null c || (List.length paths =? 0)%nat
  then Done (∅, c)
  else Remote "GetBatchFileStatus" paths 5000%N
         (fun r => match r with
                   | DErr _ => (∅, c)
                   | DOk dict => batch_apply dict ∅ c
                   end).

(* ------------------------------------------------------------------------- *)
(** * Asynchronous actions                                                    *)
(* ------------------------------------------------------------------------- *)

(** What the [GTask] delivers to the caller's callback. *)
Inductive task_result :=
  | TaskOk
  | TaskError (e : gerror).

(** [on_action_call_ready]. *)
Definition on_action_call_ready (r : dbus_result unit) : task_result :=
  match r with
  | DErr e => TaskError e
  | DOk _ => TaskOk
  end.

Definition not_available_error : gerror :=
  IoError G_IO_ERROR_NOT_CONNECTED "LNXDrive daemon is not available".

(** [lnxdrive_dbus_client_pin_file]. *)
Definition lnxdrive_dbus_client_pin_file (c : client) (path : string)
  : call unit task_result :=
  match files_proxy c with
  | None => Done (TaskError not_available_error)
  | Some _ => Remote "PinFile" [path] 30000%N on_action_call_ready
  end.

(** [lnxdrive_dbus_client_unpin_file]. *)
Definition lnxdrive_dbus_client_unpin_file (c : client) (path : string)
  : call unit task_result :=
  match files_proxy c with
  | None => Done (TaskError not_available_error)
  | Some _ => Remote "UnpinFile" [path] 30000%N on_action_call_ready
  end.

(** [lnxdrive_dbus_client_sync_path]. *)
Definition lnxdrive_dbus_client_sync_path (c : client) (path : string)
  : call unit task_result :=
  match files_proxy c with
  | None => Done (TaskError not_available_error)
  | Some _ => Remote "SyncPath" [path] 30000%N on_action_call_ready
  end.

(** The outcome the caller's callback receives for an action whose reply (if
    the message reaches the bus) is [reply]: a [Remote] call goes through
    [g_dbus_proxy_call] on the files proxy. *)
Definition action_outcome (c : client) (x : call unit task_result)
    (reply : dbus_result unit) : task_result :=
  match x with
  | Done t => t
  | Remote _ _ _ k =>
      match files_proxy c with
      | Some p =>
          match g_dbus_proxy_call_local_failure p with
          | Some e => k (DErr e)
          | None => k reply
          end
      | None => k reply
      end
  end.

(* ------------------------------------------------------------------------- *)
(** * C string helpers                                                        *)
(* ------------------------------------------------------------------------- *)

(** [k] is a prefix of [s] (the comparison [strstr] makes at each offset). *)
Fixpoint str_prefix (k s : string) : bool :=
  match k, s with
  | EmptyString, _ => true
  | String a k', String b s' => Ascii.eqb a b && str_prefix k' s'
  | String _ _, EmptyString => false
  end.

(** [strstr (hay, key)]: the suffix of [hay] at the first occurrence of
    [key], or NULL. *)
Fixpoint strstr (hay key : string) : option string :=
  if str_prefix key hay then Some hay
  else match hay with
       | EmptyString => None
       | String _ h => strstr h key
       end.

(** [pos += n]. *)
Fixpoint str_drop (n : nat) (s : string) : string :=
  match n, s with
  | O, _ => s
  | S n', String _ s' => str_drop n' s'
  | S _, EmptyString => EmptyString
  end.

(** [*pos == ' ' || *pos == '\t']. *)
Definition is_blank (c : ascii) : bool :=
  Ascii.eqb c " " || Ascii.eqb c (ascii_of_nat 9).

(** Skip the spaces and tabs at [pos]. *)
Fixpoint skip_ws (s : string) : string :=
  match s with
  | String c s' => if is_blank c then skip_ws s' else s
  | EmptyString => EmptyString
  end.

Definition is_line_end (c : ascii) : bool :=
  Ascii.eqb c (ascii_of_nat 0) || Ascii.eqb c (ascii_of_nat 10)
  || Ascii.eqb c (ascii_of_nat 13).

(** [end] advanced while [*end] is not NUL, '\n' or '\r', then
    [g_strndup (pos, end - pos)]. *)
Fixpoint take_line (s : string) : string :=
  match s with
  | EmptyString => EmptyString
  | String c s' => if is_line_end c then EmptyString else String c (take_line s')
  end.

(** Strings made of spaces and tabs only. *)
Fixpoint all_blank (s : string) : bool :=
  match s with
  | EmptyString => true
  | String c s' => is_blank c && all_blank s'
  end.

(** Strings without NUL, '\n' or '\r'. *)
Fixpoint no_line_end (s : string) : bool :=
  match s with
  | EmptyString => true
  | String c s' => negb (is_line_end c) && no_line_end s'
  end.

(** The one-character string "\n". *)
Definition newline : string := String (ascii_of_nat 10) EmptyString.

(* ------------------------------------------------------------------------- *)
(** * g_build_filename (GLib, gfileutils.c, Unix separator)                   *)
(* ------------------------------------------------------------------------- *)

Definition is_sep (c : ascii) : bool := Ascii.eqb c "/".

Fixpoint all_seps (s : string) : bool :=
  match s with
  | EmptyString => true
  | String c s' => is_sep c && all_seps s'
  end.

Fixpoint leading_seps (s : string) : string :=
  match s with
  | String c s' => if is_sep c then String c (leading_seps s') else EmptyString
  | EmptyString => EmptyString
  end.

Fixpoint strip_leading_seps (s : string) : string :=
  match s with
  | String c s' => if is_sep c then strip_leading_seps s' else s
  | EmptyString => EmptyString
  end.

Fixpoint strip_trailing_seps (s : string) : string :=
  match s with
  | EmptyString => EmptyString
  | String c s' => if all_seps s then EmptyString else String c (strip_trailing_seps s')
  end.

Fixpoint trailing_seps (s : string) : string :=
  if all_seps s then s
  else match s with
       | EmptyString => EmptyString
       | String _ s' => trailing_seps s'
       end.

Definition nonempty (s : string) : bool :=
  match s with EmptyString => false | String _ _ => true end.

(** [g_build_path_va] with separator "/": empty elements are skipped; the
    leading separators of the first element and the trailing separators of
    the last one are kept, every element is otherwise stripped of its
    separators and the non-empty cores are joined with a single "/"; a
    single element made only of separators is returned as it is. *)
Definition g_build_filename (elements : list string) : string :=
  let ne := filter (fun e => nonempty e) elements in
  match ne with
  | [] => EmptyString
  | e0 :: rest =>
      if (match rest with [] => true | _ => false end) && all_seps e0 then e0
      else
        leading_seps e0 +:+
        String.concat "/"
          (filter (fun e => nonempty e)
             (map (fun e => strip_trailing_seps (strip_leading_seps e)) ne)) +:+
        trailing_seps (List.last ne EmptyString)
  end.

(* ------------------------------------------------------------------------- *)
(** * Sync-root fetch                                                         *)
(* ------------------------------------------------------------------------- *)

Section SyncRoot.

(** [g_get_home_dir ()]. *)
Variable home : string.

Definition default_sync_root : string := g_build_filename [home; "OneDrive"].

Definition sync_root_key : string := "sync_root:".

(** The value read after the first "sync_root:" of the blob. *)
Definition raw_sync_root_value (pos : string) : string :=
  take_line (skip_ws (str_drop (String.length sync_root_key) pos)).

(** The tilde expansion of [on_get_config_ready]: [Some v] is the string
    stored in [self->sync_root]; [None] for the value "~", where
    [raw + 2] points one byte past the [g_strndup] buffer (undefined
    behaviour). *)
Definition expand_sync_root (raw : string) : option string :=
  match raw with
  | String c0 r0 =>
      if Ascii.eqb c0 "~" then
        match r0 with
        | EmptyString => None
        | String c1 rest =>
            if Ascii.eqb c1 "/" then Some (g_build_filename [home; rest])
            else Some raw
        end
      else Some raw
  | EmptyString => Some raw
  end.

(** [on_get_config_ready]: [r] is the outcome of the GetConfig call; [None]
    when the handler has undefined behaviour. *)
Definition on_get_config_ready (c : client) (r : dbus_result string)
  : option client :=
  match r with
  | DErr _ => Some (set_sync_root c (Some default_sync_root))
  | DOk yaml_str =>
      match strstr yaml_str sync_root_key with
      | Some pos =>
          match expand_sync_root (raw_sync_root_value pos) with
          | Some v => Some (set_sync_root c (Some v))
          | None => None
          end
      | None => Some (set_sync_root c (Some default_sync_root))
      end
  end.

(** The reply of GetConfig as [g_dbus_proxy_call_finish] returns it.  The
    Settings proxy is created without interface info ([fetch_sync_root_async]
    passes NULL), so GDBus does not check the reply against "(s)": the
    daemon may answer with a single string or with a value of any other
    type. *)
Inductive get_config_reply :=
  | ReplyString (yaml : string)     (* a reply of type (s) *)
  | ReplyOtherType.                 (* a reply of any type other than (s) *)

(** [on_get_config_ready] on the reply as delivered.  On a value whose type
    is not "(s)", [g_variant_get (ret, "(&s)", &yaml_str)] stops at its
    [g_return_if_fail (valid_format_string (...))] and leaves [yaml_str]
    NULL; the following [strstr (yaml_str, key)] is undefined behaviour
    ([None]). *)
Definition on_get_config_reply (c : client) (r : dbus_result get_config_reply)
  : option client :=
  match r with
  | DErr e => on_get_config_ready c (DErr e)
  | DOk (ReplyString yaml_str) => on_get_config_ready c (DOk yaml_str)
  | DOk ReplyOtherType => None
  end.

End SyncRoot.

(** Effects of [on_settings_proxy_ready] besides the state. *)
Inductive settings_effect :=
  | CallGetConfig (timeout_ms : N).

(** [on_settings_proxy_ready]: [r] is the outcome of creating the
    [com.enigmora.LNXDrive.Settings] proxy. *)
Definition on_settings_proxy_ready (home : string) (c : client)
    (r : dbus_result dbus_proxy) : client * list settings_effect :=
  match r with
  | DErr _ => (set_sync_root c (Some (default_sync_root home)), [])
  | DOk _ => (c, [CallGetConfig 5000%N])
  end.

(** [on_proxy_ready]: [r] is the outcome of creating the files proxy. *)
Definition on_proxy_ready (c : client) (r : dbus_result dbus_proxy)
  : client * list effect :=
  match r with
  | DErr _ => (set_proxy c None, [])
  | DOk p =>
      let running := match proxy_name_owner p with Some _ => true | None => false end in
      let c' := set_running (set_proxy c (Some p)) running in
      (c', if running then [FetchSyncRoot] else [])
  end.

(** [lnxdrive_dbus_client_get_sync_root]. *)
Definition lnxdrive_dbus_client_get_sync_root (c : client) : option string :=
  sync_root c.

(** [lnxdrive_dbus_client_is_daemon_running]. *)
Definition lnxdrive_dbus_client_is_daemon_running (c : client) : bool :=
  daemon_running c.

(** [lnxdrive_dbus_client_set_invalidate_func]; [set] tells whether [func]
    is non-NULL. *)
Definition lnxdrive_dbus_client_set_invalidate_func (c : client) (set : bool)
  : client :=
  {| files_proxy := files_proxy c; status_cache := status_cache c;
     sync_root := sync_root c; daemon_running := daemon_running c;
     invalidate_cb_set := set |}.

(* ------------------------------------------------------------------------- *)
(** * The client as a state machine                                           *)
(* ------------------------------------------------------------------------- *)

(** The callbacks and public calls that can run on the instance, in the order
    the main loop dispatches them. *)
Inductive event :=
  | EvProxyReady (r : dbus_result dbus_proxy)
  | EvNameOwnerChanged (owner : option string)
  | EvFileStatusChanged (path status : string)
  | EvSettingsProxyReady (r : dbus_result dbus_proxy)
  | EvGetConfigReady (r : dbus_result string)
  | EvBatchFileStatus (paths : list string) (reply : dbus_result (list (string * string)))
  | EvPinFile (path : string)
  | EvUnpinFile (path : string)
  | EvSyncPath (path : string)
  | EvSetInvalidateFunc (set : bool).

(** The instance after an event; [None] when the code has undefined
    behaviour. *)
Definition step (home : string) (c : client) (ev : event) : option client :=
  match ev with
  | EvProxyReady r => Some (fst (on_proxy_ready c r))
  | EvNameOwnerChanged o => Some (fst (on_name_owner_changed c o))
  | EvFileStatusChanged p s => Some (fst (on_file_status_changed c p s))
  | EvSettingsProxyReady r => Some (fst (on_settings_proxy_ready home c r))
  | EvGetConfigReady r => on_get_config_ready home c r
  | EvBatchFileStatus paths reply =>
      match lnxdrive_dbus_client_get_batch_file_status c paths with
      | Done (_, c') => Some c'
      | Remote _ _ _ k => Some (snd (k reply))
      end
  | EvPinFile _ | EvUnpinFile _ | EvSyncPath _ => Some c
  | EvSetInvalidateFunc b => Some (lnxdrive_dbus_client_set_invalidate_func c b)
  end.

Fixpoint run (home : string) (c : client) (evs : list event) : option client :=
  match evs with
  | [] => Some c
  | ev :: rest =>
      match step home c ev with
      | Some c' => run home c' rest
      | None => None
      end
  end.

(** The two callbacks that complete a sync-root fetch. *)
Definition completes_fetch (ev : event) : bool :=
  match ev with
  | EvSettingsProxyReady (DErr _) | EvGetConfigReady _ => true
  | _ => false
  end.

(** The events that can store a new status for [p] in the cache: a
    FileStatusChanged signal for [p], and a successful batch reply that
    names [p]. *)
Definition supplies_status (p : string) (ev : event) : bool :=
  match ev with
  | EvFileStatusChanged q _ => String.eqb q p
  | EvBatchFileStatus _ (DOk dict) => existsb (fun kv => String.eqb (fst kv) p) dict
  | _ => false
  end.

(** The cache holds no status other than "unknown" for [p]. *)
Definition cache_reads_unknown (p : string) (c : client) : Prop :=
  forall v, status_cache c !! p = Some v -> v = "unknown".

(* ------------------------------------------------------------------------- *)
(** * Action error reporting (lnxdrive-menu-provider.c)                       *)
(* ------------------------------------------------------------------------- *)

Definition LNXDRIVE_DBUS_ERROR_INSUFFICIENT_DISK_SPACE : string :=
  "org.enigmora.LNXDrive.Error.InsufficientDiskSpace".
Definition LNXDRIVE_DBUS_ERROR_FILE_IN_USE : string :=
  "org.enigmora.LNXDrive.Error.FileInUse".
Definition LNXDRIVE_DBUS_ERROR_INVALID_PATH : string :=
  "org.enigmora.LNXDrive.Error.InvalidPath".

(** [show_error_notification (title, body)]. *)
Record notification := mk_notification { title : string; body : string }.

(** [g_strcmp0 (a, b) == 0] with [a] possibly NULL and [b] not. *)
Definition g_strcmp0_eq (a : option string) (b : string) : bool :=
  match a with Some s => String.eqb s b | None => false end.

Definition dquote : string := String (ascii_of_nat 34) EmptyString.

Definition disk_space_notification : notification :=
  mk_notification "Not Enough Disk Space"
    ("There is not enough disk space to complete this operation. " +:+
     "Free up some space and try again.").

Definition file_in_use_notification : notification :=
  mk_notification "File In Use"
    ("The file is currently in use by another process. " +:+
     "Close the file and try again.").

Definition invalid_path_notification : notification :=
  mk_notification "File Not in Sync Folder"
    "This file is not inside the LNXDrive sync folder.".

(** The body of the generic notification,
    [g_strdup_printf ("The \"%s\" operation failed: %s", action_name, message)]. *)
Definition operation_failed_body (action_name message : string) : string :=
  "The " +:+ dquote +:+ action_name +:+ dquote +:+ " operation failed: " +:+ message.

(** [handle_action_error]: the notification shown, if any (gettext is the
    identity). *)
Definition handle_action_error (error : option gerror) (action_name : string)
  : option notification :=
  match error with
  | None => None
  | Some e =>
      let dbus_error := g_dbus_error_get_remote_error e in
      if g_strcmp0_eq dbus_error LNXDRIVE_DBUS_ERROR_INSUFFICIENT_DISK_SPACE then
        Some disk_space_notification
      else if g_strcmp0_eq dbus_error LNXDRIVE_DBUS_ERROR_FILE_IN_USE then
        Some file_in_use_notification
      else if g_strcmp0_eq dbus_error LNXDRIVE_DBUS_ERROR_INVALID_PATH then
        Some invalid_path_notification
      else
        Some (mk_notification "LNXDrive: Operation Failed"
                (operation_failed_body action_name (gerror_message e)))
  end.

(* ------------------------------------------------------------------------- *)
(** * Module singleton and entry point (lnxdrive-dbus-client.c,
      lnxdrive-extension.c)                                                   *)
(* ------------------------------------------------------------------------- *)

(** [lnxdrive_dbus_client_get_default]: [inst] is [default_instance]; the
    result is the instance returned and the new value of
    [default_instance].  A new instance starts as [client_init]. *)
Definition lnxdrive_dbus_client_get_default (inst : option client)
  : client * option client :=
  match inst with
  | Some c => (c, inst)
  | None => (client_init, Some client_init)
  end.

(** [lnxdrive_dbus_client_release_default]: [g_clear_object]. *)
Definition lnxdrive_dbus_client_release_default (inst : option client)
  : option client :=
  None.

(** The D-Bus client part of [nautilus_module_initialize]: the singleton is
    created if needed and [on_invalidate_request] is installed as its
    invalidation callback.  The result is the new [default_instance]. *)
Definition nautilus_module_initialize (inst : option client) : option client :=
  let '(c, _) := lnxdrive_dbus_client_get_default inst in
  Some (lnxdrive_dbus_client_set_invalidate_func c true).

(** [nautilus_module_shutdown]. *)
Definition nautilus_module_shutdown (inst : option client) : option client :=
  lnxdrive_dbus_client_release_default inst.

(** The events a running client can receive: the files proxy is created once
    (its [on_proxy_ready] runs while [self->files_proxy] is still NULL), and
    "notify::g-name-owner" is connected on the files proxy, so it is only
    delivered once that proxy exists. *)
Definition deliverable (c : client) (ev : event) : bool :=
  match ev with
  | EvProxyReady _ => proxy_is_null c
  | EvNameOwnerChanged _ => negb (proxy_is_null c)
  | _ => true
  end.

(** The instances reachable from [lnxdrive_dbus_client_init] through
    deliverable events. *)
Inductive reachable (home : string) : client -> Prop :=
  | reachable_init : reachable home client_init
  | reachable_step c ev c' :
      reachable home c -> deliverable c ev = true -> step home c ev = Some c' ->
      reachable home c'.

(* ------------------------------------------------------------------------- *)
(** * Info provider (lnxdrive-info-provider.c)                                *)
(* ------------------------------------------------------------------------- *)

(** [status_to_emblem]; [g_str_equal] is [String.eqb]. *)
Definition status_to_emblem (status : option string) : option string :=
  match status with
  | None => Some "lnxdrive-unknown"
  | Some s =>
      if String.eqb s "synced" then Some "lnxdrive-synced"
      else if String.eqb s "cloud-only" then Some "lnxdrive-cloud-only"
      else if String.eqb s "syncing" then Some "lnxdrive-syncing"
      else if String.eqb s "pending" then Some "lnxdrive-pending"
      else if String.eqb s "conflict" then Some "lnxdrive-conflict"
      else if String.eqb s "error" then Some "lnxdrive-error"
      else if String.eqb s "unknown" then Some "lnxdrive-unknown"
      else if String.eqb s "excluded" then None
      else Some "lnxdrive-unknown"
  end.

(** [status_to_label] (gettext is the identity). *)
Definition status_to_label (status : option string) : string :=
  match status with
  | None => "Unknown"
  | Some s =>
      if String.eqb s "unknown" then "Unknown"
      else if String.eqb s "synced" then "Synced"
      else if String.eqb s "cloud-only" then "Cloud Only"
      else if String.eqb s "syncing" then "Syncing"
      else if String.eqb s "pending" then "Pending"
      else if String.eqb s "conflict" then "Conflict"
      else if String.eqb s "error" then "Error"
      else if String.eqb s "excluded" then "Excluded"
      else "Unknown"
  end.

(** [path_is_under_sync_root], identical in lnxdrive-info-provider.c and
    lnxdrive-menu-provider.c.  [strncmp (path, sync_root, root_len) == 0]
    holds exactly when [sync_root] is a prefix of [path]; [path[root_len]]
    is then the first character after that prefix, or the terminating NUL
    when there is none. *)
Definition path_is_under_sync_root (path sync_root : option string) : bool :=
  match path, sync_root with
  | Some p, Some r =>
      if Nat.eqb (String.length r) 0 then false
      else if negb (str_prefix r p) then false
      else match str_drop (String.length r) p with
           | EmptyString => true
           | String c _ => Ascii.eqb c "/"
           end
  | _, _ => false
  end.

(** "\xE2\x80\x94", the UTF-8 encoding of an em dash. *)
Definition em_dash : string :=
  String (ascii_of_nat 226) (String (ascii_of_nat 128)
    (String (ascii_of_nat 148) EmptyString)).

(** What [update_file_info] does to the [NautilusFileInfo]: the emblems it
    adds and the string attributes it sets, in order.  The function always
    returns [NAUTILUS_OPERATION_COMPLETE]. *)
Record file_info_update := mk_file_info_update {
  added_emblems : list string;
  string_attributes : list (string * string);
}.

Definition no_file_info_update : file_info_update := mk_file_info_update [] [].

(** [lnxdrive_info_provider_update_file_info]: [path] is
    [uri_to_local_path (nautilus_file_info_get_uri (file))], [c] the
    default client. *)
Definition lnxdrive_info_provider_update_file_info (c : client)
    (path : option string) : file_info_update :=
  match path with
  | None => no_file_info_update
  | Some p =>
      let sync_root := lnxdrive_dbus_client_get_sync_root c in
      if negb (path_is_under_sync_root (Some p) sync_root) then no_file_info_update
      else
        let status := lnxdrive_dbus_client_get_file_status c (Some p) in
        let emblems := match status_to_emblem (Some status) with
                       | Some e => [e]
                       | None => []
                       end in
        mk_file_info_update emblems
          [("LNXDrive::status", status_to_label (Some status));
           ("LNXDrive::last_sync", em_dash)]
  end.

(* ------------------------------------------------------------------------- *)
(** * Column provider (lnxdrive-column-provider.c)                            *)
(* ------------------------------------------------------------------------- *)

(** [nautilus_column_new (name, attribute, label, description)]. *)
Record nautilus_column := mk_nautilus_column {
  column_name : string;
  column_attribute : string;
  column_label : string;
  column_description : string;
}.

(** [lnxdrive_column_provider_get_columns]. *)
Definition lnxdrive_column_provider_get_columns : list nautilus_column :=
  [mk_nautilus_column "LNXDrive::status" "LNXDrive::status"
     "LNXDrive Status" "Sync status of the file in LNXDrive";
   mk_nautilus_column "LNXDrive::last_sync" "LNXDrive::last_sync"
     "Last Synced" "When the file was last synchronized"].

(* ------------------------------------------------------------------------- *)
(** * Menu provider (lnxdrive-menu-provider.c)                                *)
(* ------------------------------------------------------------------------- *)

(** A selected file is represented by its local path,
    [uri_to_local_path (nautilus_file_info_get_uri (file_info))], NULL when
    the URI is not file://. *)

(** The "activate" handler of a menu item together with the data attached
    to the item: [attach_files_to_item] stores the whole selection under
    "lnxdrive-files"; the background item stores the folder path under
    "lnxdrive-folder-path". *)
Inductive menu_action :=
  | OnPinActivated (files : list (option string))
  | OnUnpinActivated (files : list (option string))
  | OnSyncActivated (files : list (option string))
  | OnSyncFolderActivated (folder_path : option string).

(** A [NautilusMenuItem]: name, label, tip, icon, "sensitive", the
    connected "activate" handler and the submenu. *)
#[warnings="-register-all"]
Inductive menu_item :=
  | MenuItem (name label tip : string) (icon : option string)
             (sensitive : bool) (activate : option menu_action)
             (submenu : list menu_item).

Definition item_name (i : menu_item) : string :=
  match i with MenuItem n _ _ _ _ _ _ => n end.
Definition item_sensitive (i : menu_item) : bool :=
  match i with MenuItem _ _ _ _ s _ _ => s end.
Definition item_activate (i : menu_item) : option menu_action :=
  match i with MenuItem _ _ _ _ _ a _ => a end.
Definition item_submenu (i : menu_item) : list menu_item :=
  match i with MenuItem _ _ _ _ _ _ sub => sub end.

(** A call one of the activation handlers makes on the client; each one
    passes the corresponding [on_*_done] callback. *)
Inductive client_action :=
  | ActionPinFile (path : string)
  | ActionUnpinFile (path : string)
  | ActionSyncPath (path : string).

(** The client call behind a [client_action]. *)
Definition client_action_call (c : client) (a : client_action)
  : call unit task_result :=
  match a with
  | ActionPinFile p => lnxdrive_dbus_client_pin_file c p
  | ActionUnpinFile p => lnxdrive_dbus_client_unpin_file c p
  | ActionSyncPath p => lnxdrive_dbus_client_sync_path c p
  end.

(** [on_pin_file_done]: [lnxdrive_dbus_client_pin_file_finish] is
    [g_task_propagate_boolean], FALSE with the error on [TaskError]. *)
Definition on_pin_file_done (r : task_result) : option notification :=
  match r with
  | TaskOk => None
  | TaskError e => handle_action_error (Some e) "Keep Available Offline"
  end.

(** [on_unpin_file_done]. *)
Definition on_unpin_file_done (r : task_result) : option notification :=
  match r with
  | TaskOk => None
  | TaskError e => handle_action_error (Some e) "Free Up Space"
  end.

(** [on_sync_path_done]. *)
Definition on_sync_path_done (r : task_result) : option notification :=
  match r with
  | TaskOk => None
  | TaskError e => handle_action_error (Some e) "Sync Now"
  end.

Definition client_action_done (a : client_action) (r : task_result)
  : option notification :=
  match a with
  | ActionPinFile _ => on_pin_file_done r
  | ActionUnpinFile _ => on_unpin_file_done r
  | ActionSyncPath _ => on_sync_path_done r
  end.

(** [on_pin_activated]: the loop over "lnxdrive-files". *)
Fixpoint on_pin_activated (c : client) (files : list (option string))
  : list client_action :=
  match files with
  | [] => []
  | None :: rest => on_pin_activated c rest
  | Some p :: rest =>
      if String.eqb (lnxdrive_dbus_client_get_file_status c (Some p)) "cloud-only"
      then ActionPinFile p :: on_pin_activated c rest
      else on_pin_activated c rest
  end.

(** [on_unpin_activated]. *)
Fixpoint on_unpin_activated (c : client) (files : list (option string))
  : list client_action :=
  match files with
  | [] => []
  | None :: rest => on_unpin_activated c rest
  | Some p :: rest =>
      if String.eqb (lnxdrive_dbus_client_get_file_status c (Some p)) "synced"
      then ActionUnpinFile p :: on_unpin_activated c rest
      else on_unpin_activated c rest
  end.

(** [on_sync_activated]. *)
Fixpoint on_sync_activated (c : client) (files : list (option string))
  : list client_action :=
  match files with
  | [] => []
  | None :: rest => on_sync_activated c rest
  | Some p :: rest => ActionSyncPath p :: on_sync_activated c rest
  end.

(** [on_sync_folder_activated]. *)
Definition on_sync_folder_activated (c : client) (folder_path : option string)
  : list client_action :=
  match folder_path with
  | Some p => [ActionSyncPath p]
  | None => []
  end.

(** Emitting "activate" on an item with handler [a]; [c] is the default
    client at that moment. *)
Definition activate_item (c : client) (a : menu_action) : list client_action :=
  match a with
  | OnPinActivated files => on_pin_activated c files
  | OnUnpinActivated files => on_unpin_activated c files
  | OnSyncActivated files => on_sync_activated c files
  | OnSyncFolderActivated fp => on_sync_folder_activated c fp
  end.

Definition service_unavailable_item : menu_item :=
  MenuItem "LNXDrive::service_unavailable"
    ("LNXDrive " +:+ em_dash +:+ " Service Not Running")
    "The LNXDrive synchronization service is not running"
    None false None [].

Definition pin_item (files : list (option string)) : menu_item :=
  MenuItem "LNXDrive::pin" "Keep Available Offline"
    "Download selected cloud-only files and keep them available offline"
    (Some "folder-download-symbolic") true (Some (OnPinActivated files)) [].

Definition unpin_item (files : list (option string)) : menu_item :=
  MenuItem "LNXDrive::unpin" "Free Up Space"
    "Convert selected files to cloud-only placeholders to free disk space"
    (Some "edit-clear-symbolic") true (Some (OnUnpinActivated files)) [].

Definition sync_now_item (files : list (option string)) : menu_item :=
  MenuItem "LNXDrive::sync_now" "Sync Now"
    "Immediately synchronize selected files"
    (Some "emblem-synchronizing-symbolic") true (Some (OnSyncActivated files)) [].

(** The loop of [get_file_items] over the selection, with its three flags
    [(any_in_sync_root, has_cloud_only, has_pinned)]. *)
Fixpoint file_items_scan (c : client) (sync_root : option string)
    (files : list (option string)) (flags : bool * bool * bool)
  : bool * bool * bool :=
  match files with
  | [] => flags
  | None :: rest => file_items_scan c sync_root rest flags
  | Some p :: rest =>
      if negb (path_is_under_sync_root (Some p) sync_root)
      then file_items_scan c sync_root rest flags
      else
        let '(_, has_cloud_only, has_pinned) := flags in
        let status := lnxdrive_dbus_client_get_file_status c (Some p) in
        let flags' :=
          if String.eqb status "cloud-only" then (true, true, has_pinned)
          else if String.eqb status "synced" then (true, has_cloud_only, true)
          else (true, has_cloud_only, has_pinned) in
        file_items_scan c sync_root rest flags'
  end.

(** [lnxdrive_menu_provider_get_file_items]; [files = []] is a NULL list. *)
Definition lnxdrive_menu_provider_get_file_items (c : client)
    (files : list (option string)) : list menu_item :=
  match files with
  | [] => []
  | _ :: _ =>
      let sync_root := lnxdrive_dbus_client_get_sync_root c in
      if negb (lnxdrive_dbus_client_is_daemon_running c)
      then [service_unavailable_item]
      else
        let '(any_in_sync_root, has_cloud_only, has_pinned) :=
          file_items_scan c sync_root files (false, false, false) in
        if negb any_in_sync_root then []
        else
          [MenuItem "LNXDrive::top_menu" "LNXDrive" "LNXDrive file actions"
             (Some "lnxdrive-synced") true None
             ((if has_cloud_only then [pin_item files] else []) ++
              (if has_pinned then [unpin_item files] else []) ++
              [sync_now_item files])]
  end.

(** [lnxdrive_menu_provider_get_background_items]: [current_folder] is
    [None] for a NULL folder, otherwise [Some] of the folder's local path. *)
Definition lnxdrive_menu_provider_get_background_items (c : client)
    (current_folder : option (option string)) : list menu_item :=
  match current_folder with
  | None => []
  | Some folder_path =>
      let sync_root := lnxdrive_dbus_client_get_sync_root c in
      if negb (lnxdrive_dbus_client_is_daemon_running c) then []
      else match folder_path with
           | None => []
           | Some fp =>
               if negb (path_is_under_sync_root (Some fp) sync_root) then []
               else
                 [MenuItem "LNXDrive::bg_top_menu" "LNXDrive" "LNXDrive folder actions"
                    (Some "lnxdrive-synced") true None
                    [MenuItem "LNXDrive::sync_folder" "Sync This Folder"
                       "Immediately synchronize this folder"
                       (Some "emblem-synchronizing-symbolic") true
                       (Some (OnSyncFolderActivated (Some fp))) []]]
           end
  end.

(** The action name [on_*_done] passes to [handle_action_error]. *)
Definition action_display_name (a : client_action) : string :=
  match a with
  | ActionPinFile _ => "Keep Available Offline"
  | ActionUnpinFile _ => "Free Up Space"
  | ActionSyncPath _ => "Sync Now"
  end.

(** A selected file that [get_file_items] counts as managed (under the sync
    root) and whose cached status is [s]; used to state what the loop of
    [get_file_items] computes. *)
Definition managed_with_status (c : client) (s : string) (f : option string) : bool :=
  path_is_under_sync_root f (lnxdrive_dbus_client_get_sync_root c) &&
  String.eqb (lnxdrive_dbus_client_get_file_status c f) s.

(* ========================================================================= *)
(** * Proofs                                                                  *)
(* ========================================================================= *)

(** ** Helper lemmas on strings *)

(** [String.append] is [simpl never] under stdpp: its two equations. *)
Lemma str_app_nil (b : string) : EmptyString +:+ b = b.
Proof. reflexivity. Qed.

Lemma str_app_cons (x : ascii) (a b : string) : String x a +:+ b = String x (a +:+ b).
Proof. reflexivity. Qed.

Lemma str_app_assoc (a b d : string) : (a +:+ b) +:+ d = a +:+ (b +:+ d).
Proof.
  induction a as [|x a IH]; [reflexivity|]. rewrite !str_app_cons. f_equal. exact IH.
Qed.

Lemma str_length_app (a b : string) :
  String.length (a +:+ b) = (String.length a + String.length b)%nat.
Proof.
  induction a as [|x a IH]; [reflexivity|]. rewrite str_app_cons. simpl. f_equal. exact IH.
Qed.

(** ** Helper lemmas on the instance setters and the batch loop *)

Lemma batch_apply_fields (dict : list (string * string)) (m : gmap string string) (c : client) :
  files_proxy (snd (batch_apply dict m c)) = files_proxy c /\
  sync_root (snd (batch_apply dict m c)) = sync_root c /\
  daemon_running (snd (batch_apply dict m c)) = daemon_running c.
Proof.
  revert m c. induction dict as [|[k v] rest IH]; intros m c; simpl.
  - auto.
  - destruct (IH (<[k:=v]> m) (set_cache c (<[k:=v]> (status_cache c)))) as (H1 & H2 & H3).
    rewrite H1, H2, H3. auto.
Qed.

(** Every entry of the result table is also in the cache, as long as it was
    so for the initial table. *)
Lemma batch_apply_result_in_cache (dict : list (string * string)) :
  forall (m : gmap string string) (c : client),
  (forall p s, m !! p = Some s -> status_cache c !! p = Some s) ->
  forall p s, fst (batch_apply dict m c) !! p = Some s ->
              status_cache (snd (batch_apply dict m c)) !! p = Some s.
Proof.
  induction dict as [|[k v] rest IH]; intros m c Hinv; simpl.
  - exact Hinv.
  - apply IH. simpl. intros p s Hp.
    destruct (decide (k = p)) as [->|Hne].
    + rewrite lookup_insert_eq in Hp |- *. exact Hp.
    + rewrite lookup_insert_ne in Hp |- * by exact Hne. auto.
Qed.

Lemma batch_apply_not_key (dict : list (string * string)) :
  forall (m : gmap string string) (c : client) (p : string),
  ~ In p (map fst dict) -> fst (batch_apply dict m c) !! p = m !! p.
Proof.
  induction dict as [|[k v] rest IH]; intros m c p Hp; simpl in *.
  - reflexivity.
  - rewrite IH by tauto. apply lookup_insert_ne. intros ->. tauto.
Qed.

Lemma batch_apply_entry (dict : list (string * string)) :
  forall (m : gmap string string) (c : client) (p s : string),
  NoDup (map fst dict) -> In (p, s) dict -> fst (batch_apply dict m c) !! p = Some s.
Proof.
  induction dict as [|[k v] rest IH]; intros m c p s Hnd Hin; simpl in *.
  - contradiction.
  - inversion Hnd as [|? ? Hk Hnd']; subst.
    destruct Hin as [Heq|Hin].
    + injection Heq as -> ->.
      rewrite batch_apply_not_key by (rewrite <- list_elem_of_In; exact Hk).
      apply lookup_insert_eq.
    + apply IH; assumption.
Qed.

(** ** C1: cache reads while absent or disconnected *)

(** C1: [lnxdrive_dbus_client_get_file_status] yields "unknown" for a path
    without cache entry and for every path while [daemon_running] is FALSE,
    whatever the cache holds; a NULL path also yields "unknown".  The result
    is always a string, never an error or NULL. *)
Theorem get_file_status_unknown (c : client) (p : string)
  (H : status_cache c !! p = None \/ daemon_running c = false) :
  lnxdrive_dbus_client_get_file_status c (Some p) = "unknown" /\
  lnxdrive_dbus_client_get_file_status c None = "unknown".
Proof.
  unfold lnxdrive_dbus_client_get_file_status. split; [|reflexivity].
  destruct H as [H|H].
  - destruct (daemon_running c); simpl; [rewrite H|]; reflexivity.
  - rewrite H. reflexivity.
Qed.

Lemma get_file_status_unknown_witness :
  let c := {| files_proxy := Some (mk_proxy None);
              status_cache := <["/a" := "synced"]> ∅;
              sync_root := None; daemon_running := false;
              invalidate_cb_set := false |} in
  lnxdrive_dbus_client_get_file_status c (Some "/a") = "unknown" /\
  lnxdrive_dbus_client_get_file_status c None = "unknown".
Proof.
  intros c. apply (get_file_status_unknown c "/a"). right. reflexivity.
Defined.

(** ** C3: daemon leaving the bus *)

(** C3: when the name owner becomes NULL, [on_name_owner_changed] sets
    [daemon_running] to FALSE and rewrites every cache value to "unknown"
    in place: the key set is unchanged, every previously cached key maps to
    "unknown", and every later [get_file_status] returns "unknown". *)
Theorem name_owner_lost_invalidates_cache (c : client) :
  let c' := fst (on_name_owner_changed c None) in
  daemon_running c' = false /\
  dom (status_cache c') = dom (status_cache c) /\
  size (status_cache c') = size (status_cache c) /\
  (forall p, is_Some (status_cache c !! p) <-> status_cache c' !! p = Some "unknown") /\
  (forall p, lnxdrive_dbus_client_get_file_status c' (Some p) = "unknown").
Proof.
  simpl. split; [reflexivity|]. split; [apply dom_fmap_L|].
  split; [apply map_size_fmap|]. split.
  - intros p. rewrite lookup_fmap.
    destruct (status_cache c !! p) eqn:E; simpl; split; intros H.
    + reflexivity.
    + eauto.
    + destruct H as [? H]; discriminate.
    + discriminate.
  - intros p. reflexivity.
Qed.

(** ** C4: FileStatusChanged push notifications *)

(** C4: for every push, whatever the state of the client,
    [on_file_status_changed] overwrites the cache entry of [p] with [s] and
    then emits "file-status-changed" with the same pair (the handlers
    already see [p] mapped to [s]).  Afterwards [get_file_status p] is [s]
    while connected: at once when the daemon is running, and once the
    daemon gets an owner when the push arrived before.  A push after a batch
    result for [p] overwrites it. *)
Theorem file_status_push_updates_cache_then_emits (home : string) (c : client)
  (p s : string) :
  status_cache (fst (on_file_status_changed c p s)) = <[p := s]> (status_cache c) /\
  hd_error (snd (on_file_status_changed c p s)) =
    Some (EmitFileStatusChanged p s (<[p := s]> (status_cache c))) /\
  (<[p := s]> (status_cache c)) !! p = Some s /\
  (daemon_running c = true ->
   lnxdrive_dbus_client_get_file_status (fst (on_file_status_changed c p s)) (Some p) = s) /\
  (forall o,
     match run home c [EvFileStatusChanged p s; EvNameOwnerChanged (Some o)] with
     | Some c2 => lnxdrive_dbus_client_get_file_status c2 (Some p) = s
     | None => False
     end) /\
  (forall paths reply,
     match run home c [EvBatchFileStatus paths reply; EvFileStatusChanged p s] with
     | Some c2 => status_cache c2 !! p = Some s /\
                  (daemon_running c = true ->
                   lnxdrive_dbus_client_get_file_status c2 (Some p) = s)
     | None => False
     end).
Proof.
  split; [reflexivity|]. split; [reflexivity|]. split; [apply lookup_insert_eq|].
  split; [|split].
  - intros Hrun. unfold lnxdrive_dbus_client_get_file_status. simpl. rewrite Hrun. simpl.
    rewrite lookup_insert_eq. reflexivity.
  - intros o. simpl. unfold lnxdrive_dbus_client_get_file_status. simpl.
    rewrite lookup_insert_eq. reflexivity.
  - intros paths reply. simpl.
    assert (Hb : exists c1, step home c (EvBatchFileStatus paths reply) = Some c1 /\
                            daemon_running c1 = daemon_running c).
    { simpl. unfold lnxdrive_dbus_client_get_batch_file_status.
      destruct (negb (daemon_running c) || proxy_is_null c || (List.length paths =? 0)%nat).
      - eauto.
      - destruct reply as [dict|e]; simpl.
        + eexists. split; [reflexivity|].
          destruct (batch_apply_fields dict ∅ c) as (_ & _ & ->). reflexivity.
        + eauto. }
    destruct Hb as (c1 & Hc1 & Hrun1). simpl in Hc1. rewrite Hc1. simpl.
    split; [apply lookup_insert_eq|].
    intros Hrun. unfold lnxdrive_dbus_client_get_file_status. simpl.
    rewrite Hrun1, Hrun. simpl. rewrite lookup_insert_eq. reflexivity.
Qed.

(** ** C8: batch results are written to the cache *)

(** C8: while connected (daemon running, files proxy present) and for a
    non-empty path list, [get_batch_file_status] issues GetBatchFileStatus;
    on a successful reply every (path, status) pair of the returned table is
    also in the cache and [get_file_status] then returns that status; when the
    reply has no repeated key, every pair of the reply is in the returned
    table.  E.g. a reply mapping p to "synced" makes [get_file_status p]
    return "synced". *)
Theorem batch_result_written_to_cache (c : client) (paths : list string)
  (Hrun : daemon_running c = true) (Hproxy : files_proxy c <> None)
  (Hne : paths <> []) :
  exists k,
    lnxdrive_dbus_client_get_batch_file_status c paths =
      Remote "GetBatchFileStatus" paths 5000%N k /\
    (forall dict p s,
       fst (k (DOk dict)) !! p = Some s ->
       status_cache (snd (k (DOk dict))) !! p = Some s /\
       lnxdrive_dbus_client_get_file_status (snd (k (DOk dict))) (Some p) = s) /\
    (forall dict p s,
       NoDup (map fst dict) -> In (p, s) dict -> fst (k (DOk dict)) !! p = Some s) /\
    (forall p s,
       lnxdrive_dbus_client_get_file_status (snd (k (DOk [(p, s)]))) (Some p) = s).
Proof.
  unfold lnxdrive_dbus_client_get_batch_file_status.
  assert (Hg : negb (daemon_running c) || proxy_is_null c || (List.length paths =? 0)%nat
               = false).
  { rewrite Hrun. unfold proxy_is_null. destruct (files_proxy c); [|congruence].
    destruct paths; [congruence|reflexivity]. }
  rewrite Hg. eexists. split; [reflexivity|].
  assert (Hcached : forall dict p s,
            fst (batch_apply dict ∅ c) !! p = Some s ->
            status_cache (snd (batch_apply dict ∅ c)) !! p = Some s /\
            lnxdrive_dbus_client_get_file_status (snd (batch_apply dict ∅ c)) (Some p) = s).
  { intros dict p s Hp.
    assert (Hc : status_cache (snd (batch_apply dict ∅ c)) !! p = Some s).
    { apply batch_apply_result_in_cache; [|exact Hp].
      intros q t Hq. rewrite lookup_empty in Hq. discriminate. }
    split; [exact Hc|].
    unfold lnxdrive_dbus_client_get_file_status.
    destruct (batch_apply_fields dict ∅ c) as (_ & _ & ->). rewrite Hrun, Hc.
    reflexivity. }
  split; [exact Hcached|]. split.
  - intros dict p s Hnd Hin. apply batch_apply_entry; assumption.
  - intros p s. apply (Hcached [(p, s)] p s). simpl. apply lookup_insert_eq.
Qed.

Lemma batch_result_written_to_cache_witness :
  let c := {| files_proxy := Some (mk_proxy (Some ":1.42"));
              status_cache := ∅; sync_root := None; daemon_running := true;
              invalidate_cb_set := false |} in
  daemon_running c = true /\ files_proxy c <> None /\ ["/p"] <> [] /\
  exists k,
    lnxdrive_dbus_client_get_batch_file_status c ["/p"] =
      Remote "GetBatchFileStatus" ["/p"] 5000%N k /\
    (forall dict p s,
       fst (k (DOk dict)) !! p = Some s ->
       status_cache (snd (k (DOk dict))) !! p = Some s /\
       lnxdrive_dbus_client_get_file_status (snd (k (DOk dict))) (Some p) = s) /\
    (forall dict p s,
       NoDup (map fst dict) -> In (p, s) dict -> fst (k (DOk dict)) !! p = Some s) /\
    (forall p s,
       lnxdrive_dbus_client_get_file_status (snd (k (DOk [(p, s)]))) (Some p) = s).
Proof.
  intros c. split; [reflexivity|]. split; [discriminate|]. split; [discriminate|].
  apply (batch_result_written_to_cache c ["/p"]); [reflexivity|discriminate|discriminate].
Defined.

(** ** C10: batch query without daemon, proxy or paths *)

(** C10: when the daemon is not running, the files proxy is NULL or the path
    array is empty, [get_batch_file_status] returns at once an empty (non-NULL)
    table, issues no D-Bus call and leaves the instance, hence the cache,
    unchanged. *)
Theorem batch_without_daemon_is_empty (c : client) (paths : list string)
  (H : daemon_running c = false \/ files_proxy c = None \/ paths = []) :
  lnxdrive_dbus_client_get_batch_file_status c paths = Done (∅, c) /\
  issues_remote_call (lnxdrive_dbus_client_get_batch_file_status c paths) = false.
Proof.
  unfold lnxdrive_dbus_client_get_batch_file_status.
  assert (Hg : negb (daemon_running c) || proxy_is_null c || (List.length paths =? 0)%nat
               = true).
  { destruct H as [H|[H|H]].
    - rewrite H. reflexivity.
    - unfold proxy_is_null. rewrite H, orb_true_r. reflexivity.
    - subst paths. apply orb_true_r. }
  rewrite Hg. split; reflexivity.
Qed.

Lemma batch_without_daemon_is_empty_witness :
  let c := {| files_proxy := Some (mk_proxy None);
              status_cache := <["/a" := "synced"]> ∅;
              sync_root := None; daemon_running := false;
              invalidate_cb_set := false |} in
  lnxdrive_dbus_client_get_batch_file_status c ["/a"] = Done (∅, c) /\
  issues_remote_call (lnxdrive_dbus_client_get_batch_file_status c ["/a"]) = false.
Proof.
  intros c. apply (batch_without_daemon_is_empty c ["/a"]). left. reflexivity.
Defined.

(** ** C2: actions while the daemon is not on the bus *)

(** C2 (divergence): right after start-up with no daemon on the bus the files
    proxy is created without a name owner, so [daemon_running] is FALSE but
    the proxy is non-NULL.  [pin_file], [unpin_file] and [sync_path] only test
    the proxy: instead of reporting [G_IO_ERROR_NOT_CONNECTED] they hand the
    method call to [g_dbus_proxy_call], whose callback receives GDBus's
    [G_IO_ERROR_FAILED] error.  Only before the proxy exists do they report
    [G_IO_ERROR_NOT_CONNECTED]. *)
Theorem actions_without_daemon_call_gdbus :
  let c := fst (on_proxy_ready client_init (DOk (mk_proxy None))) in
  lnxdrive_dbus_client_is_daemon_running c = false /\
  lnxdrive_dbus_client_pin_file c "/x" = Remote "PinFile" ["/x"] 30000%N on_action_call_ready /\
  lnxdrive_dbus_client_unpin_file c "/x" =
    Remote "UnpinFile" ["/x"] 30000%N on_action_call_ready /\
  lnxdrive_dbus_client_sync_path c "/x" =
    Remote "SyncPath" ["/x"] 30000%N on_action_call_ready /\
  (forall reply, exists msg,
     action_outcome c (lnxdrive_dbus_client_pin_file c "/x") reply =
       TaskError (IoError G_IO_ERROR_FAILED msg)) /\
  (forall reply,
     action_outcome c (lnxdrive_dbus_client_pin_file c "/x") reply <>
       TaskError not_available_error) /\
  lnxdrive_dbus_client_pin_file client_init "/x" = Done (TaskError not_available_error).
Proof.
  simpl. split; [reflexivity|]. split; [reflexivity|]. split; [reflexivity|].
  split; [reflexivity|]. split.
  - intros reply. eexists. reflexivity.
  - split; [|reflexivity]. intros reply. simpl. discriminate.
Qed.

(** ** C9: classification of action errors *)

(** C9: for a failed action ([error] non-NULL), [handle_action_error] shows
    exactly one notification: the specific one for each of the remote error
    names InsufficientDiskSpace, FileInUse and InvalidPath, and for every other
    error the generic "Operation Failed" one whose body ends with the original
    error message; the four titles are pairwise distinct. *)
Theorem handle_action_error_classifies (e : gerror) (action_name : string) :
  (g_dbus_error_get_remote_error e = Some LNXDRIVE_DBUS_ERROR_INSUFFICIENT_DISK_SPACE ->
   handle_action_error (Some e) action_name = Some disk_space_notification) /\
  (g_dbus_error_get_remote_error e = Some LNXDRIVE_DBUS_ERROR_FILE_IN_USE ->
   handle_action_error (Some e) action_name = Some file_in_use_notification) /\
  (g_dbus_error_get_remote_error e = Some LNXDRIVE_DBUS_ERROR_INVALID_PATH ->
   handle_action_error (Some e) action_name = Some invalid_path_notification) /\
  (g_dbus_error_get_remote_error e <> Some LNXDRIVE_DBUS_ERROR_INSUFFICIENT_DISK_SPACE ->
   g_dbus_error_get_remote_error e <> Some LNXDRIVE_DBUS_ERROR_FILE_IN_USE ->
   g_dbus_error_get_remote_error e <> Some LNXDRIVE_DBUS_ERROR_INVALID_PATH ->
   exists prefix,
     handle_action_error (Some e) action_name =
       Some (mk_notification "LNXDrive: Operation Failed" (prefix +:+ gerror_message e))) /\
  NoDup [title disk_space_notification; title file_in_use_notification;
         title invalid_path_notification; "LNXDrive: Operation Failed"].
Proof.
  unfold handle_action_error, g_strcmp0_eq.
  destruct (g_dbus_error_get_remote_error e) as [n|] eqn:En.
  - split; [intros H; injection H as ->; reflexivity|].
    split; [intros H; injection H as ->; reflexivity|].
    split; [intros H; injection H as ->; reflexivity|].
    split.
    + intros H1 H2 H3.
      destruct (String.eqb_spec n LNXDRIVE_DBUS_ERROR_INSUFFICIENT_DISK_SPACE); [congruence|].
      destruct (String.eqb_spec n LNXDRIVE_DBUS_ERROR_FILE_IN_USE); [congruence|].
      destruct (String.eqb_spec n LNXDRIVE_DBUS_ERROR_INVALID_PATH); [congruence|].
      eexists. unfold operation_failed_body. rewrite <- !str_app_assoc. reflexivity.
    + apply (bool_decide_unpack _). vm_compute. reflexivity.
  - split; [discriminate|]. split; [discriminate|]. split; [discriminate|].
    split.
    + intros _ _ _. eexists. unfold operation_failed_body.
      rewrite <- !str_app_assoc. reflexivity.
    + apply (bool_decide_unpack _). vm_compute. reflexivity.
Qed.

Lemma handle_action_error_classifies_witness :
  handle_action_error
    (Some (DBusRemoteError LNXDRIVE_DBUS_ERROR_FILE_IN_USE "/locked.txt is open"))
    "Keep Available Offline" = Some file_in_use_notification.
Proof.
  apply (handle_action_error_classifies
           (DBusRemoteError LNXDRIVE_DBUS_ERROR_FILE_IN_USE "/locked.txt is open")
           "Keep Available Offline").
  reflexivity.
Defined.

(** ** C6: fallback of the sync-root fetch *)

(** C6 (counterexample): the fallback does not cover a malformed or absent
    blob.  A reply that is not a single string (the Settings proxy has no
    interface info, so GDBus accepts it) leaves [yaml_str] NULL and
    [strstr (NULL, ...)] is undefined behaviour; a malformed blob that
    contains "sync_root:" (here an unclosed flow mapping) has the text after
    the key stored, not <home>/OneDrive. *)
Lemma sync_root_fetch_fallback_counterexample :
  on_get_config_reply "/home/user" client_init (DOk ReplyOtherType) = None /\
  on_get_config_reply "/home/user" client_init (DOk (ReplyString "{sync_root: /data")) =
    Some (set_sync_root client_init (Some "/data")) /\
  Some "/data" <> Some (g_build_filename ["/home/user"; "OneDrive"]).
Proof. split; [reflexivity|]. split; [reflexivity|]. discriminate. Qed.

(** C6 (amended): a failed Settings proxy creation, a failed or timed-out
    GetConfig call (any [GError]) and a string blob without "sync_root:"
    all set the sync root to [g_build_filename (home, "OneDrive")], i.e.
    <home>/OneDrive, and change nothing else; the handlers have no error
    channel to any caller.  A string blob that contains "sync_root:",
    well-formed or not, stores the value after its first occurrence
    instead, and a reply that is not a single string has undefined
    behaviour. *)
Theorem sync_root_fetch_fallback (home : string) (c : client) :
  (forall e, on_get_config_ready home c (DErr e) =
             Some (set_sync_root c (Some (g_build_filename [home; "OneDrive"])))) /\
  (forall e, on_get_config_reply home c (DErr e) =
             Some (set_sync_root c (Some (g_build_filename [home; "OneDrive"])))) /\
  (forall e, on_settings_proxy_ready home c (DErr e) =
             (set_sync_root c (Some (g_build_filename [home; "OneDrive"])), [])) /\
  (forall blob, strstr blob sync_root_key = None ->
     on_get_config_ready home c (DOk blob) =
       Some (set_sync_root c (Some (g_build_filename [home; "OneDrive"])))) /\
  on_get_config_ready "/home/user" c (DOk ("version: 2" +:+ newline +:+ "other: 1" +:+ newline))
    = Some (set_sync_root c (Some "/home/user/OneDrive")) /\
  (forall blob, on_get_config_reply home c (DOk (ReplyString blob)) =
                on_get_config_ready home c (DOk blob)) /\
  (forall blob pos, strstr blob sync_root_key = Some pos ->
     on_get_config_ready home c (DOk blob) =
       option_map (fun v => set_sync_root c (Some v))
         (expand_sync_root home (raw_sync_root_value pos))) /\
  on_get_config_reply home c (DOk ReplyOtherType) = None.
Proof.
  split; [intros e; reflexivity|]. split; [intros e; reflexivity|].
  split; [intros e; reflexivity|]. split.
  - intros blob Hnone. unfold on_get_config_ready. rewrite Hnone. reflexivity.
  - split; [reflexivity|]. split; [intros blob; reflexivity|]. split; [|reflexivity].
    intros blob pos Hpos. unfold on_get_config_ready. rewrite Hpos.
    destruct (expand_sync_root home (raw_sync_root_value pos)); reflexivity.
Qed.

Lemma sync_root_fetch_fallback_witness :
  strstr ("version: 2" +:+ newline) sync_root_key = None /\
  on_get_config_ready "/home/user" client_init (DOk ("version: 2" +:+ newline)) =
    Some (set_sync_root client_init (Some (g_build_filename ["/home/user"; "OneDrive"]))).
Proof.
  split; [reflexivity|].
  apply (proj1 (proj2 (proj2 (proj2 (sync_root_fetch_fallback "/home/user" client_init))))).
  reflexivity.
Defined.

(** ** C7: the sync root before any fetch *)

Lemma step_keeps_sync_root (home : string) (c c' : client) (ev : event) :
  completes_fetch ev = false -> step home c ev = Some c' -> sync_root c' = sync_root c.
Proof.
  intros Hev Hstep. destruct ev as [r|o|p s|r|r|paths reply|p|p|p|b]; simpl in *;
    try discriminate.
  - destruct r; injection Hstep as <-; reflexivity.
  - destruct o; injection Hstep as <-; reflexivity.
  - injection Hstep as <-. reflexivity.
  - destruct r; [|discriminate]. injection Hstep as <-. reflexivity.
  - unfold lnxdrive_dbus_client_get_batch_file_status in Hstep.
    destruct (negb (daemon_running c) || proxy_is_null c || (List.length paths =? 0)%nat).
    + injection Hstep as <-. reflexivity.
    + destruct reply as [dict|e]; injection Hstep as <-; [|reflexivity].
      apply batch_apply_fields.
  - injection Hstep as <-. reflexivity.
  - injection Hstep as <-. reflexivity.
  - injection Hstep as <-. reflexivity.
  - injection Hstep as <-. reflexivity.
Qed.

Lemma run_keeps_sync_root (home : string) (evs : list event) :
  forall c c', forallb (fun ev => negb (completes_fetch ev)) evs = true ->
  run home c evs = Some c' -> sync_root c' = sync_root c.
Proof.
  induction evs as [|ev rest IH]; intros c c' Hno Hrun; simpl in *.
  - injection Hrun as <-. reflexivity.
  - apply andb_prop in Hno as [Hev Hrest]. apply negb_true_iff in Hev.
    destruct (step home c ev) as [c1|] eqn:E; [|discriminate].
    rewrite (IH c1 c' Hrest Hrun). exact (step_keeps_sync_root home c c1 ev Hev E).
Qed.

(** C7 (counterexample): [lnxdrive_dbus_client_init] leaves [sync_root]
    NULL, and it stays NULL when the proxy comes up without a daemon, so
    [get_sync_root] returns NULL, not <home>/OneDrive. *)
Lemma sync_root_default_counterexample :
  lnxdrive_dbus_client_get_sync_root client_init = None /\
  run "/home/user" client_init [EvProxyReady (DOk (mk_proxy None))] =
    Some (fst (on_proxy_ready client_init (DOk (mk_proxy None)))) /\
  lnxdrive_dbus_client_get_sync_root
    (fst (on_proxy_ready client_init (DOk (mk_proxy None)))) = None /\
  lnxdrive_dbus_client_get_sync_root client_init <>
    Some (g_build_filename ["/home/user"; "OneDrive"]).
Proof.
  split; [reflexivity|]. split; [reflexivity|]. split; [reflexivity|]. discriminate.
Qed.

(** C7 (amended): from creation, [get_sync_root] returns NULL along every
    sequence of events that completes no sync-root fetch (in particular when
    the daemon never appears), and from any state such an event leaves the
    sync root as it is.  A completed fetch always stores a non-NULL value:
    <home>/OneDrive when the Settings proxy cannot be created, when the
    GetConfig call fails and when the blob has no "sync_root:"; otherwise the
    value read after the first "sync_root:", with its "~/" expanded. *)
Theorem sync_root_null_until_fetch (home : string) (evs : list event) (c' : client)
  (Hno : forallb (fun ev => negb (completes_fetch ev)) evs = true)
  (Hrun : run home client_init evs = Some c') :
  lnxdrive_dbus_client_get_sync_root c' = None /\
  (forall c0 ev c1, completes_fetch ev = false -> step home c0 ev = Some c1 ->
     lnxdrive_dbus_client_get_sync_root c1 = lnxdrive_dbus_client_get_sync_root c0) /\
  (forall ev c'', completes_fetch ev = true -> step home c' ev = Some c'' ->
     exists v, lnxdrive_dbus_client_get_sync_root c'' = Some v) /\
  (forall e, step home c' (EvSettingsProxyReady (DErr e)) =
     Some (set_sync_root c' (Some (g_build_filename [home; "OneDrive"])))) /\
  (forall e, step home c' (EvGetConfigReady (DErr e)) =
     Some (set_sync_root c' (Some (g_build_filename [home; "OneDrive"])))) /\
  (forall blob, strstr blob sync_root_key = None ->
     step home c' (EvGetConfigReady (DOk blob)) =
     Some (set_sync_root c' (Some (g_build_filename [home; "OneDrive"])))) /\
  (forall blob pos c'', strstr blob sync_root_key = Some pos ->
     step home c' (EvGetConfigReady (DOk blob)) = Some c'' ->
     lnxdrive_dbus_client_get_sync_root c'' =
       expand_sync_root home (raw_sync_root_value pos)).
Proof.
  split; [exact (run_keeps_sync_root home evs client_init c' Hno Hrun)|].
  split; [intros c0 ev c1; exact (step_keeps_sync_root home c0 c1 ev)|].
  split; [|split; [intros e; reflexivity|split; [intros e; reflexivity|split]]].
  - intros ev c'' Hev Hstep. destruct ev as [r|o|p s|r|r|paths reply|p|p|p|b];
      simpl in Hev; try discriminate.
    + destruct r; [discriminate|]. injection Hstep as <-. eexists. reflexivity.
    + simpl in Hstep. unfold on_get_config_ready in Hstep.
      destruct r as [blob|e]; [|injection Hstep as <-; eexists; reflexivity].
      destruct (strstr blob sync_root_key); [|injection Hstep as <-; eexists; reflexivity].
      destruct (expand_sync_root home _); [|discriminate].
      injection Hstep as <-. eexists. reflexivity.
  - intros blob Hnone. simpl. unfold on_get_config_ready. rewrite Hnone. reflexivity.
  - intros blob pos c'' Hpos Hstep. simpl in Hstep. unfold on_get_config_ready in Hstep.
    rewrite Hpos in Hstep.
    destruct (expand_sync_root home (raw_sync_root_value pos)); [|discriminate].
    injection Hstep as <-. reflexivity.
Qed.

Lemma sync_root_null_until_fetch_witness :
  lnxdrive_dbus_client_get_sync_root
    (fst (on_proxy_ready client_init (DOk (mk_proxy None)))) = None.
Proof.
  apply (sync_root_null_until_fetch "/home/user" [EvProxyReady (DOk (mk_proxy None))]
           (fst (on_proxy_ready client_init (DOk (mk_proxy None))))); reflexivity.
Defined.

(** ** C5: extraction of the sync root from the settings blob *)

Lemma str_prefix_app_self (k r : string) : str_prefix k (k +:+ r) = true.
Proof.
  induction k as [|x k IH]; [reflexivity|].
  rewrite str_app_cons. simpl. rewrite Ascii.eqb_refl, IH. reflexivity.
Qed.

Lemma str_prefix_app_long (k : string) :
  forall s t, (String.length k <= String.length s)%nat ->
  str_prefix k (s +:+ t) = str_prefix k s.
Proof.
  induction k as [|x k IH]; intros s t Hlen; [reflexivity|].
  destruct s as [|y s]; simpl in Hlen; [lia|].
  rewrite str_app_cons. simpl. rewrite IH by lia. reflexivity.
Qed.

Lemma strstr_eq (hay key : string) :
  strstr hay key =
    if str_prefix key hay then Some hay
    else match hay with EmptyString => None | String _ h => strstr h key end.
Proof. destruct hay; reflexivity. Qed.

(** [strstr] finds the occurrence after [pre] when none begins inside [pre]. *)
Lemma strstr_first_occurrence (pre rest : string) :
  strstr (pre +:+ "sync_root") sync_root_key = None ->
  strstr (pre +:+ sync_root_key +:+ rest) sync_root_key = Some (sync_root_key +:+ rest).
Proof.
  induction pre as [|x pre IH]; intros Hnone.
  - rewrite str_app_nil, strstr_eq, str_prefix_app_self. reflexivity.
  - rewrite str_app_cons in Hnone |- *. rewrite strstr_eq in Hnone |- *.
    destruct (str_prefix sync_root_key (String x (pre +:+ "sync_root"))) eqn:Ep;
      [discriminate|].
    assert (Hsplit : String x (pre +:+ sync_root_key +:+ rest) =
                     String x (pre +:+ "sync_root") +:+ (":" +:+ rest)).
    { rewrite str_app_cons, str_app_assoc. reflexivity. }
    rewrite Hsplit at 1. rewrite str_prefix_app_long, Ep.
    + apply IH. exact Hnone.
    + simpl. rewrite str_length_app. simpl. lia.
Qed.

Lemma str_drop_app (k r : string) : str_drop (String.length k) (k +:+ r) = r.
Proof. induction k as [|x k IH]; [reflexivity|]. rewrite str_app_cons. exact IH. Qed.

Lemma line_end_not_blank (ch : ascii) : is_line_end ch = true -> is_blank ch = false.
Proof.
  unfold is_line_end, is_blank. intros H.
  destruct (Ascii.eqb_spec ch " ") as [->|]; [discriminate|].
  destruct (Ascii.eqb_spec ch (ascii_of_nat 9)) as [->|]; [discriminate|].
  reflexivity.
Qed.

Lemma skip_ws_app (ws v : string) :
  all_blank ws = true ->
  match v with String ch _ => is_blank ch = false | EmptyString => True end ->
  skip_ws (ws +:+ v) = v.
Proof.
  induction ws as [|x ws IH]; intros Hws Hv.
  - rewrite str_app_nil. destruct v as [|ch v]; simpl; [reflexivity|].
    rewrite Hv. reflexivity.
  - rewrite str_app_cons. simpl in Hws |- *.
    apply andb_prop in Hws as [Hx Hws]. rewrite Hx. apply IH; assumption.
Qed.

Lemma take_line_app (v post : string) :
  no_line_end v = true ->
  match post with String ch _ => is_line_end ch | EmptyString => true end = true ->
  take_line (v +:+ post) = v.
Proof.
  induction v as [|x v IH]; intros Hv Hpost.
  - rewrite str_app_nil. destruct post as [|ch post]; simpl; [reflexivity|].
    rewrite Hpost. reflexivity.
  - rewrite str_app_cons. simpl in Hv |- *.
    apply andb_prop in Hv as [Hx Hv]. apply negb_true_iff in Hx. rewrite Hx.
    f_equal. apply IH; assumption.
Qed.

(** The value stored for a blob of the shape
    pre ++ "sync_root:" ++ blanks ++ value ++ post. *)
Lemma on_get_config_ready_value (home : string) (c : client)
    (pre ws val post : string)
  (Hfirst : strstr (pre +:+ "sync_root") sync_root_key = None)
  (Hws : all_blank ws = true)
  (Hval0 : match val with String ch _ => is_blank ch = false | EmptyString => True end)
  (Hval : no_line_end val = true)
  (Hpost : match post with String ch _ => is_line_end ch | EmptyString => true end = true) :
  on_get_config_ready home c (DOk (pre +:+ sync_root_key +:+ ws +:+ val +:+ post)) =
    match expand_sync_root home val with
    | Some v => Some (set_sync_root c (Some v))
    | None => None
    end.
Proof.
  unfold on_get_config_ready. rewrite strstr_first_occurrence by exact Hfirst.
  unfold raw_sync_root_value. rewrite str_drop_app.
  rewrite skip_ws_app by
    (first [exact Hws
           | destruct val as [|ch v]; [|exact Hval0];
             rewrite str_app_nil; destruct post as [|ch p]; [exact I|];
             apply line_end_not_blank; exact Hpost]).
  rewrite take_line_app by assumption. reflexivity.
Qed.

(** C5 (counterexample): the value is not trimmed on the right: a blank
    before the end of the line stays in the sync root. *)
Lemma sync_root_trailing_blank_counterexample :
  on_get_config_ready "/home/user" client_init (DOk ("sync_root: /data " +:+ newline)) =
    Some (set_sync_root client_init (Some "/data ")) /\
  "/data " <> "/data".
Proof. split; [reflexivity|discriminate]. Qed.

(** C5 (amended): for a blob pre ++ "sync_root:" ++ blanks ++ value ++ post
    where no "sync_root:" begins inside [pre], [blanks] are spaces and tabs,
    [value] does not start with one and holds no NUL, '\n' or '\r', and [post]
    is empty or starts with one of these, the sync root becomes
    [g_build_filename (home, rest)] when value = "~/" ++ rest and [value]
    verbatim (trailing blanks included) when it does not start with "~/"
    (the value "~" alone left aside); the rest of the instance is unchanged.
    The blob "version: 2\nsync_root: ~/Work/Drive\nother: 1\n" gives
    [g_build_filename (home, "Work/Drive")], "/home/user/Work/Drive" for the
    home directory "/home/user". *)
Theorem sync_root_extracted_after_first_key (home : string) (c : client)
    (pre ws val post : string)
  (Hfirst : strstr (pre +:+ "sync_root") sync_root_key = None)
  (Hws : all_blank ws = true)
  (Hval0 : match val with String ch _ => is_blank ch = false | EmptyString => True end)
  (Hval : no_line_end val = true)
  (Hpost : match post with String ch _ => is_line_end ch | EmptyString => true end = true)
  (Htilde : val <> "~") :
  (exists c',
     on_get_config_ready home c (DOk (pre +:+ sync_root_key +:+ ws +:+ val +:+ post))
       = Some c' /\
     c' = set_sync_root c (sync_root c') /\
     (forall rest, val = "~/" +:+ rest -> sync_root c' = Some (g_build_filename [home; rest])) /\
     ((forall rest, val <> "~/" +:+ rest) -> sync_root c' = Some val)) /\
  on_get_config_ready home c
    (DOk ("version: 2" +:+ newline +:+ "sync_root: ~/Work/Drive" +:+ newline +:+
          "other: 1" +:+ newline))
    = Some (set_sync_root c (Some (g_build_filename [home; "Work/Drive"]))) /\
  g_build_filename ["/home/user"; "Work/Drive"] = "/home/user/Work/Drive".
Proof.
  split; [|split; reflexivity].
  rewrite (on_get_config_ready_value home c pre ws val post Hfirst Hws Hval0 Hval Hpost).
  destruct val as [|c0 r0].
  - eexists. split; [reflexivity|]. split; [reflexivity|]. split; [|reflexivity].
    intros rest H. cbv [String.append] in H. discriminate.
  - unfold expand_sync_root. destruct (Ascii.eqb_spec c0 "~") as [->|Hc0].
    + destruct r0 as [|c1 rest]; [contradiction|].
      destruct (Ascii.eqb_spec c1 "/") as [->|Hc1].
      * eexists. split; [reflexivity|]. split; [reflexivity|]. split.
        -- intros rest' H. cbv [String.append] in H. injection H as ->. reflexivity.
        -- intros H. exfalso. apply (H rest). reflexivity.
      * eexists. split; [reflexivity|]. split; [reflexivity|]. split; [|reflexivity].
        intros rest' H. cbv [String.append] in H. injection H as ? _. congruence.
    + eexists. split; [reflexivity|]. split; [reflexivity|]. split; [|reflexivity].
      intros rest' H. cbv [String.append] in H. injection H as ? _. congruence.
Qed.

Lemma sync_root_extracted_after_first_key_witness :
  on_get_config_ready "/home/user" client_init
    (DOk (("version: 2" +:+ newline) +:+ sync_root_key +:+ " " +:+ "~/Work/Drive" +:+ newline))
    = Some (set_sync_root client_init (Some "/home/user/Work/Drive")).
Proof.
  destruct (sync_root_extracted_after_first_key "/home/user" client_init
              ("version: 2" +:+ newline) " " "~/Work/Drive" newline)
    as [(c' & Hc' & Hset & Htil & _) _];
    [reflexivity|reflexivity|reflexivity|reflexivity|reflexivity|discriminate|].
  rewrite Hc', Hset, (Htil "Work/Drive" eq_refl). reflexivity.
Defined.

(* ------------------------------------------------------------------------- *)
(** * Further properties of the extension                                     *)
(* ------------------------------------------------------------------------- *)

(** ** Helper lemmas *)

Lemma str_app_nil_r (a : string) : a +:+ EmptyString = a.
Proof. induction a as [|x a IH]; [reflexivity|]. rewrite str_app_cons, IH. reflexivity. Qed.

Lemma str_app_inj_l (a b d : string) : a +:+ b = a +:+ d -> b = d.
Proof.
  induction a as [|x a IH]; intros H; [exact H|].
  rewrite !str_app_cons in H. injection H as H. exact (IH H).
Qed.

Lemma str_prefix_spec (k s : string) : str_prefix k s = true <-> exists r, s = k +:+ r.
Proof.
  revert s. induction k as [|x k IH]; intros s.
  - split; [intros _; exists s; reflexivity|reflexivity].
  - destruct s as [|y s]; simpl.
    + split; [discriminate|]. intros [r Hr]. rewrite str_app_cons in Hr. discriminate.
    + rewrite andb_true_iff, IH. split.
      * intros [Hxy [r ->]]. apply Ascii.eqb_eq in Hxy. subst. exists r.
        rewrite str_app_cons. reflexivity.
      * intros [r Hr]. rewrite str_app_cons in Hr. injection Hr as -> ->.
        split; [apply Ascii.eqb_refl|]. exists r. reflexivity.
Qed.

Ltac string_cases s tac :=
  repeat match goal with
         | |- context [String.eqb s ?t] => destruct (String.eqb_spec s t) as [->|?]; [tac|]
         end.

Lemma status_to_emblem_None (s : string) :
  status_to_emblem (Some s) = None <-> s = "excluded".
Proof.
  unfold status_to_emblem. split; [|intros ->; reflexivity].
  string_cases s ltac:(intros H; first [reflexivity | discriminate]).
  intros H. discriminate.
Qed.

(** ** X1: the sync-root test *)

(** X1: [path_is_under_sync_root] (both copies) is FALSE when the path or the
    root is NULL, and for non-NULL ones it holds exactly when the root is
    not empty and the path is the root itself or the root followed by "/"
    and anything; a sibling such as root ++ "2" is rejected. *)
Theorem path_is_under_sync_root_iff :
  (forall x : option string,
     path_is_under_sync_root None x = false /\ path_is_under_sync_root x None = false) /\
  (forall p r : string,
     path_is_under_sync_root (Some p) (Some r) = true <->
     r <> EmptyString /\ (p = r \/ exists rest, p = r +:+ String "/" rest)).
Proof.
  split; [intros [x|]; split; reflexivity|]. intros p r.
  unfold path_is_under_sync_root.
  destruct (Nat.eqb_spec (String.length r) 0) as [Hl|Hl].
  - destruct r; [|discriminate]. split; [discriminate|]. intros [H _]. congruence.
  - assert (Hr : r <> EmptyString) by (intros ->; apply Hl; reflexivity).
    destruct (str_prefix r p) eqn:Hp; simpl.
    + apply str_prefix_spec in Hp as [s ->]. rewrite str_drop_app.
      destruct s as [|ch s'].
      * split; [intros _; split; [exact Hr|left; apply str_app_nil_r]|reflexivity].
      * split.
        -- intros H. apply Ascii.eqb_eq in H. subst ch. split; [exact Hr|].
           right. exists s'. reflexivity.
        -- intros [_ [H|[rest H]]].
           ++ exfalso. apply (f_equal String.length) in H.
              rewrite str_length_app in H. simpl in H. lia.
           ++ apply str_app_inj_l in H. injection H as -> _. apply Ascii.eqb_refl.
    + split; [discriminate|]. intros [_ [->|[rest ->]]].
      * rewrite <- (str_app_nil_r r) in Hp at 2. rewrite str_prefix_app_self in Hp.
        discriminate.
      * rewrite str_prefix_app_self in Hp. discriminate.
Qed.

(** ** X2, X3: status vocabulary *)

(** X2: [status_to_emblem] returns NULL exactly for "excluded"; each of
    "synced", "cloud-only", "syncing", "pending", "conflict", "error" and
    "unknown" gets the emblem "lnxdrive-" ++ status; a NULL status and every
    other string get "lnxdrive-unknown". *)
Theorem status_to_emblem_cases (s : string) :
  (status_to_emblem (Some s) = None <-> s = "excluded") /\
  (In s ["synced"; "cloud-only"; "syncing"; "pending"; "conflict"; "error"; "unknown"] ->
   status_to_emblem (Some s) = Some ("lnxdrive-" +:+ s)) /\
  (~ In s ["synced"; "cloud-only"; "syncing"; "pending"; "conflict"; "error"; "unknown";
           "excluded"] ->
   status_to_emblem (Some s) = Some "lnxdrive-unknown") /\
  status_to_emblem None = Some "lnxdrive-unknown".
Proof.
  split; [|split; [|split]].
  - apply status_to_emblem_None.
  - intros H. repeat destruct H as [<-|H]; try reflexivity. destruct H.
  - intros H. unfold status_to_emblem.
    string_cases s ltac:(exfalso; apply H; simpl; tauto). reflexivity.
  - reflexivity.
Qed.

(** X3: [status_to_label] never returns NULL; it gives "Unknown" exactly for
    the strings other than "synced", "cloud-only", "syncing", "pending",
    "conflict", "error" and "excluded" (so also for "unknown" and NULL), and
    the eight statuses of the vocabulary get eight different labels. *)
Theorem status_to_label_cases (s : string) :
  (status_to_label (Some s) = "Unknown" <->
   ~ In s ["synced"; "cloud-only"; "syncing"; "pending"; "conflict"; "error"; "excluded"]) /\
  NoDup (map (fun st => status_to_label (Some st))
           ["unknown"; "synced"; "cloud-only"; "syncing"; "pending"; "conflict";
            "error"; "excluded"]) /\
  status_to_label None = "Unknown".
Proof.
  split; [|split; [apply (bool_decide_unpack _); vm_compute; reflexivity|reflexivity]].
  unfold status_to_label. split.
  - intros Hl Hin. repeat destruct Hin as [<-|Hin]; try discriminate. destruct Hin.
  - intros Hn.
    string_cases s ltac:(first [reflexivity | exfalso; apply Hn; simpl; tauto]).
    reflexivity.
Qed.

(** ** Info provider *)

Lemma update_file_info_managed (c : client) (p : string)
  (Hin : path_is_under_sync_root (Some p) (lnxdrive_dbus_client_get_sync_root c) = true) :
  lnxdrive_info_provider_update_file_info c (Some p) =
    mk_file_info_update
      (match status_to_emblem (Some (lnxdrive_dbus_client_get_file_status c (Some p))) with
       | Some e => [e]
       | None => []
       end)
      [("LNXDrive::status",
        status_to_label (Some (lnxdrive_dbus_client_get_file_status c (Some p))));
       ("LNXDrive::last_sync", em_dash)].
Proof.
  unfold lnxdrive_info_provider_update_file_info. cbv beta iota zeta.
  rewrite Hin. reflexivity.
Qed.

(** X4: [update_file_info] adds no emblem and no attribute to a file whose
    local path is NULL or not under the sync root, in particular to every
    file while the sync root is NULL, whatever the cache holds for it. *)
Theorem update_file_info_unmanaged_untouched (c : client) (path : option string)
  (H : path_is_under_sync_root path (lnxdrive_dbus_client_get_sync_root c) = false) :
  lnxdrive_info_provider_update_file_info c path = no_file_info_update.
Proof.
  destruct path as [p|]; [|reflexivity].
  unfold lnxdrive_info_provider_update_file_info. cbv beta iota zeta.
  rewrite H. reflexivity.
Qed.

Lemma update_file_info_unmanaged_untouched_witness :
  let c := {| files_proxy := Some (mk_proxy (Some ":1.42"));
              status_cache := <["/home/u/OneDrive2/a.txt" := "synced"]> ∅;
              sync_root := Some "/home/u/OneDrive"; daemon_running := true;
              invalidate_cb_set := true |} in
  path_is_under_sync_root (Some "/home/u/OneDrive2/a.txt")
    (lnxdrive_dbus_client_get_sync_root c) = false /\
  lnxdrive_info_provider_update_file_info c (Some "/home/u/OneDrive2/a.txt")
    = no_file_info_update.
Proof.
  intros c. split; [reflexivity|].
  apply (update_file_info_unmanaged_untouched c (Some "/home/u/OneDrive2/a.txt")).
  reflexivity.
Defined.

(** X5: while the daemon is not running, every file under the sync root gets
    the emblem "lnxdrive-unknown", the status attribute "Unknown" and the
    last-sync attribute "\xE2\x80\x94", whatever the cache holds. *)
Theorem update_file_info_daemon_down_unknown (c : client) (p : string)
  (Hin : path_is_under_sync_root (Some p) (lnxdrive_dbus_client_get_sync_root c) = true)
  (Hdown : daemon_running c = false) :
  lnxdrive_info_provider_update_file_info c (Some p) =
    mk_file_info_update ["lnxdrive-unknown"]
      [("LNXDrive::status", "Unknown"); ("LNXDrive::last_sync", em_dash)].
Proof.
  rewrite (update_file_info_managed c p Hin).
  unfold lnxdrive_dbus_client_get_file_status. rewrite Hdown. reflexivity.
Qed.

Lemma update_file_info_daemon_down_unknown_witness :
  let c := {| files_proxy := Some (mk_proxy None);
              status_cache := <["/home/u/OneDrive/a.txt" := "synced"]> ∅;
              sync_root := Some "/home/u/OneDrive"; daemon_running := false;
              invalidate_cb_set := true |} in
  path_is_under_sync_root (Some "/home/u/OneDrive/a.txt")
    (lnxdrive_dbus_client_get_sync_root c) = true /\
  daemon_running c = false /\
  lnxdrive_info_provider_update_file_info c (Some "/home/u/OneDrive/a.txt") =
    mk_file_info_update ["lnxdrive-unknown"]
      [("LNXDrive::status", "Unknown"); ("LNXDrive::last_sync", em_dash)].
Proof.
  intros c. split; [reflexivity|]. split; [reflexivity|].
  apply (update_file_info_daemon_down_unknown c "/home/u/OneDrive/a.txt");
    reflexivity.
Defined.

(** ** Column provider and info provider together *)

(** X6: for every file under the sync root, [update_file_info] sets exactly
    the attributes the two columns of [get_columns] display, in the same
    order: "LNXDrive::status" with the label of the file's status and
    "LNXDrive::last_sync" with "\xE2\x80\x94"; it adds at most one emblem,
    and none exactly when the status read from the client is "excluded". *)
Theorem update_file_info_fills_columns (c : client) (p : string)
  (Hin : path_is_under_sync_root (Some p) (lnxdrive_dbus_client_get_sync_root c) = true) :
  let u := lnxdrive_info_provider_update_file_info c (Some p) in
  let status := lnxdrive_dbus_client_get_file_status c (Some p) in
  map fst (string_attributes u) = map column_attribute lnxdrive_column_provider_get_columns /\
  In ("LNXDrive::status", status_to_label (Some status)) (string_attributes u) /\
  In ("LNXDrive::last_sync", em_dash) (string_attributes u) /\
  (added_emblems u = [] <-> status = "excluded") /\
  (List.length (added_emblems u) <= 1)%nat.
Proof.
  cbv zeta. rewrite (update_file_info_managed c p Hin).
  set (st := lnxdrive_dbus_client_get_file_status c (Some p)).
  rewrite <- status_to_emblem_None.
  split; [reflexivity|]. split; [left; reflexivity|]. split; [right; left; reflexivity|].
  destruct (status_to_emblem (Some st)); cbn [added_emblems List.length];
    (split; [split; intros H; first [reflexivity | discriminate H] | lia]).
Qed.

Lemma update_file_info_fills_columns_witness :
  let c := {| files_proxy := Some (mk_proxy (Some ":1.42"));
              status_cache := <["/home/u/OneDrive/tmp" := "excluded"]> ∅;
              sync_root := Some "/home/u/OneDrive"; daemon_running := true;
              invalidate_cb_set := true |} in
  path_is_under_sync_root (Some "/home/u/OneDrive/tmp")
    (lnxdrive_dbus_client_get_sync_root c) = true /\
  lnxdrive_info_provider_update_file_info c (Some "/home/u/OneDrive/tmp") =
    mk_file_info_update []
      [("LNXDrive::status", "Excluded"); ("LNXDrive::last_sync", em_dash)] /\
  (added_emblems (lnxdrive_info_provider_update_file_info c (Some "/home/u/OneDrive/tmp"))
     = [] <->
   lnxdrive_dbus_client_get_file_status c (Some "/home/u/OneDrive/tmp") = "excluded").
Proof.
  intros c. split; [reflexivity|]. split; [reflexivity|].
  apply (update_file_info_fills_columns c "/home/u/OneDrive/tmp"). reflexivity.
Defined.

(** ** Menu provider *)

Lemma file_items_scan_flags (c : client) (files : list (option string)) :
  forall a b d,
  file_items_scan c (lnxdrive_dbus_client_get_sync_root c) files (a, b, d) =
    (a || existsb (fun f => path_is_under_sync_root f (lnxdrive_dbus_client_get_sync_root c)) files,
     b || existsb (managed_with_status c "cloud-only") files,
     d || existsb (managed_with_status c "synced") files).
Proof.
  induction files as [|[p|] rest IH]; intros a b d.
  - destruct a, b, d; reflexivity.
  - cbn [file_items_scan existsb]. unfold managed_with_status at 1 3.
    destruct (path_is_under_sync_root (Some p) (lnxdrive_dbus_client_get_sync_root c));
      cbn [negb andb].
    + set (st := lnxdrive_dbus_client_get_file_status c (Some p)).
      destruct (String.eqb_spec st "cloud-only") as [E|E].
      * rewrite E. cbn [String.eqb]. rewrite IH. destruct a, b, d; reflexivity.
      * destruct (String.eqb_spec st "synced") as [E'|E'];
          rewrite IH; destruct a, b, d; reflexivity.
    + rewrite IH. destruct a, b, d; reflexivity.
  - cbn [file_items_scan existsb]. rewrite IH. reflexivity.
Qed.

Lemma get_file_items_running (c : client) (files : list (option string))
  (Hne : files <> []) (Hrun : daemon_running c = true) :
  lnxdrive_menu_provider_get_file_items c files =
    if negb (existsb (fun f => path_is_under_sync_root f (lnxdrive_dbus_client_get_sync_root c))
               files) then []
    else
      [MenuItem "LNXDrive::top_menu" "LNXDrive" "LNXDrive file actions"
         (Some "lnxdrive-synced") true None
         ((if existsb (managed_with_status c "cloud-only") files then [pin_item files] else []) ++
          (if existsb (managed_with_status c "synced") files then [unpin_item files] else []) ++
          [sync_now_item files])].
Proof.
  unfold lnxdrive_menu_provider_get_file_items.
  destruct files as [|f rest]; [contradiction|].
  cbv zeta. unfold lnxdrive_dbus_client_is_daemon_running. rewrite Hrun. cbn [negb].
  rewrite file_items_scan_flags. reflexivity.
Qed.

Lemma on_pin_activated_in (c : client) (files : list (option string)) (a : client_action) :
  In a (on_pin_activated c files) <->
  exists p, a = ActionPinFile p /\ In (Some p) files /\
            lnxdrive_dbus_client_get_file_status c (Some p) = "cloud-only".
Proof.
  induction files as [|[p|] rest IH];
    cbn [on_pin_activated on_unpin_activated In].
  - split; [tauto|]. intros (p & _ & [] & _).
  - destruct (String.eqb_spec (lnxdrive_dbus_client_get_file_status c (Some p)) "cloud-only")
      as [E|E]; cbn [In]; rewrite IH; split.
    + intros [<-|(q & -> & Hq & Hs)]; [exists p; tauto|exists q; tauto].
    + intros (q & -> & [Hq|Hq] & Hs); [injection Hq as ->; left; reflexivity|].
      right. exists q. tauto.
    + intros (q & -> & Hq & Hs). exists q. tauto.
    + intros (q & -> & [Hq|Hq] & Hs); [injection Hq as ->; contradiction|].
      exists q. tauto.
  - rewrite IH. split.
    + intros (q & -> & Hq & Hs). exists q. split; [reflexivity|].
      split; [right; exact Hq|exact Hs].
    + intros (q & -> & [Hq|Hq] & Hs); [discriminate|]. exists q. tauto.
Qed.

Lemma on_unpin_activated_in (c : client) (files : list (option string)) (a : client_action) :
  In a (on_unpin_activated c files) <->
  exists p, a = ActionUnpinFile p /\ In (Some p) files /\
            lnxdrive_dbus_client_get_file_status c (Some p) = "synced".
Proof.
  induction files as [|[p|] rest IH];
    cbn [on_pin_activated on_unpin_activated In].
  - split; [tauto|]. intros (p & _ & [] & _).
  - destruct (String.eqb_spec (lnxdrive_dbus_client_get_file_status c (Some p)) "synced")
      as [E|E]; cbn [In]; rewrite IH; split.
    + intros [<-|(q & -> & Hq & Hs)]; [exists p; tauto|exists q; tauto].
    + intros (q & -> & [Hq|Hq] & Hs); [injection Hq as ->; left; reflexivity|].
      right. exists q. tauto.
    + intros (q & -> & Hq & Hs). exists q. tauto.
    + intros (q & -> & [Hq|Hq] & Hs); [injection Hq as ->; contradiction|].
      exists q. tauto.
  - rewrite IH. split.
    + intros (q & -> & Hq & Hs). exists q. split; [reflexivity|].
      split; [right; exact Hq|exact Hs].
    + intros (q & -> & [Hq|Hq] & Hs); [discriminate|]. exists q. tauto.
Qed.

Lemma on_sync_activated_paths (c : client) (files : list (option string)) :
  on_sync_activated c files = map ActionSyncPath (omap (fun f => f) files).
Proof. induction files as [|[p|] rest IH]; simpl; rewrite ?IH; reflexivity. Qed.

(** X7: [get_file_items] returns no item for an empty (NULL) selection, and
    for a non-empty one while the daemon is not running it returns the single
    insensitive item "LNXDrive::service_unavailable", with no action and no
    submenu, whatever the selection and the sync root are. *)
Theorem file_items_daemon_down (c : client) (files : list (option string))
  (Hne : files <> []) (Hdown : daemon_running c = false) :
  lnxdrive_menu_provider_get_file_items c [] = [] /\
  lnxdrive_menu_provider_get_file_items c files = [service_unavailable_item] /\
  item_name service_unavailable_item = "LNXDrive::service_unavailable" /\
  item_sensitive service_unavailable_item = false /\
  item_activate service_unavailable_item = None /\
  item_submenu service_unavailable_item = [].
Proof.
  split; [reflexivity|]. split; [|repeat split].
  unfold lnxdrive_menu_provider_get_file_items.
  destruct files as [|f rest]; [contradiction|].
  unfold lnxdrive_dbus_client_is_daemon_running. rewrite Hdown. reflexivity.
Qed.

Lemma file_items_daemon_down_witness :
  let c := {| files_proxy := Some (mk_proxy None);
              status_cache := <["/home/u/OneDrive/a" := "cloud-only"]> ∅;
              sync_root := Some "/home/u/OneDrive"; daemon_running := false;
              invalidate_cb_set := true |} in
  [Some "/home/u/OneDrive/a"; None] <> [] /\ daemon_running c = false /\
  lnxdrive_menu_provider_get_file_items c [Some "/home/u/OneDrive/a"; None]
    = [service_unavailable_item].
Proof.
  intros c. split; [discriminate|]. split; [reflexivity|].
  apply (file_items_daemon_down c [Some "/home/u/OneDrive/a"; None]);
    [discriminate|reflexivity].
Defined.

(** X8: while the daemon is running, [get_file_items] returns no item when
    no selected file has a local path under the sync root; in particular it
    returns none for every selection while the sync root is NULL. *)
Theorem file_items_none_managed (c : client) (files : list (option string))
  (Hrun : daemon_running c = true)
  (Hnone : existsb (fun f => path_is_under_sync_root f (lnxdrive_dbus_client_get_sync_root c))
             files = false) :
  lnxdrive_menu_provider_get_file_items c files = [].
Proof.
  destruct files as [|f rest] eqn:Ef; [reflexivity|].
  rewrite <- Ef in *. rewrite (get_file_items_running c files) by (subst; congruence).
  rewrite Hnone. reflexivity.
Qed.

Lemma file_items_none_managed_witness :
  let c := {| files_proxy := Some (mk_proxy (Some ":1.42"));
              status_cache := <["/home/u/OneDrive/a" := "cloud-only"]> ∅;
              sync_root := None; daemon_running := true;
              invalidate_cb_set := true |} in
  daemon_running c = true /\
  existsb (fun f => path_is_under_sync_root f (lnxdrive_dbus_client_get_sync_root c))
    [Some "/home/u/OneDrive/a"] = false /\
  lnxdrive_menu_provider_get_file_items c [Some "/home/u/OneDrive/a"] = [].
Proof.
  intros c. split; [reflexivity|]. split; [reflexivity|].
  apply (file_items_none_managed c [Some "/home/u/OneDrive/a"]); reflexivity.
Defined.

(** X9: while the daemon is running and at least one selected file is under
    the sync root, [get_file_items] returns the single "LNXDrive::top_menu"
    item, whose submenu holds, in this order, "Keep Available Offline" if and
    only if some selected file under the sync root has the cached status
    "cloud-only", "Free Up Space" if and only if some has "synced", and
    always "Sync Now"; each of these items carries the whole selection. *)
Theorem file_items_menu_shape (c : client) (files : list (option string))
  (Hrun : daemon_running c = true)
  (Hany : existsb (fun f => path_is_under_sync_root f (lnxdrive_dbus_client_get_sync_root c))
            files = true) :
  lnxdrive_menu_provider_get_file_items c files =
    [MenuItem "LNXDrive::top_menu" "LNXDrive" "LNXDrive file actions"
       (Some "lnxdrive-synced") true None
       ((if existsb (managed_with_status c "cloud-only") files then [pin_item files] else []) ++
        (if existsb (managed_with_status c "synced") files then [unpin_item files] else []) ++
        [sync_now_item files])].
Proof.
  rewrite get_file_items_running
    by first [assumption | intros ->; discriminate Hany].
  rewrite Hany. reflexivity.
Qed.

Lemma file_items_menu_shape_witness :
  let c := {| files_proxy := Some (mk_proxy (Some ":1.42"));
              status_cache := <["/home/u/OneDrive/a" := "cloud-only"]>
                              (<["/home/u/b" := "synced"]> ∅);
              sync_root := Some "/home/u/OneDrive"; daemon_running := true;
              invalidate_cb_set := true |} in
  let files := [Some "/home/u/OneDrive/a"; Some "/home/u/b"] in
  daemon_running c = true /\
  existsb (fun f => path_is_under_sync_root f (lnxdrive_dbus_client_get_sync_root c))
    files = true /\
  lnxdrive_menu_provider_get_file_items c files =
    [MenuItem "LNXDrive::top_menu" "LNXDrive" "LNXDrive file actions"
       (Some "lnxdrive-synced") true None [pin_item files; sync_now_item files]].
Proof.
  intros c files. split; [reflexivity|]. split; [reflexivity|].
  rewrite (file_items_menu_shape c files); reflexivity.
Defined.

(** X10: the "activate" handlers act on the whole attached selection, not
    only on the files under the sync root: "Keep Available Offline" calls
    [pin_file] exactly for the selected files with a local path whose status,
    read from the client at activation time, is "cloud-only"; "Free Up Space"
    calls [unpin_file] exactly for those whose status is "synced"; "Sync Now"
    calls [sync_path] for every selected file with a local path. *)
Theorem activation_targets (c : client) (files : list (option string)) (a : client_action) :
  (In a (activate_item c (OnPinActivated files)) <->
   exists p, a = ActionPinFile p /\ In (Some p) files /\
             lnxdrive_dbus_client_get_file_status c (Some p) = "cloud-only") /\
  (In a (activate_item c (OnUnpinActivated files)) <->
   exists p, a = ActionUnpinFile p /\ In (Some p) files /\
             lnxdrive_dbus_client_get_file_status c (Some p) = "synced") /\
  (In a (activate_item c (OnSyncActivated files)) <->
   exists p, a = ActionSyncPath p /\ In (Some p) files).
Proof.
  split; [apply on_pin_activated_in|]. split; [apply on_unpin_activated_in|].
  cbn [activate_item]. rewrite on_sync_activated_paths, in_map_iff. split.
  - intros (p & <- & Hp). exists p. split; [reflexivity|].
    apply list_elem_of_In in Hp. apply list_elem_of_omap in Hp as (f & Hf & ->).
    apply list_elem_of_In. exact Hf.
  - intros (p & -> & Hp). exists p. split; [reflexivity|].
    apply list_elem_of_In. apply list_elem_of_omap. exists (Some p).
    split; [apply list_elem_of_In; exact Hp|reflexivity].
Qed.

(** X11: whenever the file menu is offered, its "Sync Now" item, activated
    later against any client state, calls [sync_path] once for each selected
    file with a local path, in selection order, including the selected files
    that are outside the sync root. *)
Theorem sync_now_syncs_whole_selection (c c' : client) (files : list (option string))
  (Hrun : daemon_running c = true)
  (Hany : existsb (fun f => path_is_under_sync_root f (lnxdrive_dbus_client_get_sync_root c))
            files = true) :
  exists top,
    lnxdrive_menu_provider_get_file_items c files = [top] /\
    exists it, In it (item_submenu top) /\ item_name it = "LNXDrive::sync_now" /\
      option_map (activate_item c') (item_activate it) =
        Some (map ActionSyncPath (omap (fun f => f) files)).
Proof.
  rewrite get_file_items_running
    by first [assumption | intros ->; discriminate Hany].
  rewrite Hany. eexists. split; [reflexivity|]. exists (sync_now_item files).
  split; [cbn [item_submenu]; apply in_or_app; right; apply in_or_app; right; left; reflexivity|].
  split; [reflexivity|]. cbn. rewrite on_sync_activated_paths. reflexivity.
Qed.

Lemma sync_now_syncs_whole_selection_witness :
  let c := {| files_proxy := Some (mk_proxy (Some ":1.42"));
              status_cache := ∅; sync_root := Some "/home/u/OneDrive";
              daemon_running := true; invalidate_cb_set := true |} in
  let files := [Some "/home/u/OneDrive/a"; None; Some "/tmp/outside"] in
  daemon_running c = true /\
  existsb (fun f => path_is_under_sync_root f (lnxdrive_dbus_client_get_sync_root c))
    files = true /\
  exists top,
    lnxdrive_menu_provider_get_file_items c files = [top] /\
    exists it, In it (item_submenu top) /\ item_name it = "LNXDrive::sync_now" /\
      option_map (activate_item c) (item_activate it) =
        Some [ActionSyncPath "/home/u/OneDrive/a"; ActionSyncPath "/tmp/outside"].
Proof.
  intros c files. split; [reflexivity|]. split; [reflexivity|].
  apply (sync_now_syncs_whole_selection c c files); reflexivity.
Defined.

(** X12: while the daemon is not running, activating "Keep Available
    Offline" or "Free Up Space" (offered earlier, while it was running) calls
    nothing, since every status then reads "unknown"; "Sync Now" still calls
    [sync_path] for every selected file with a local path. *)
Theorem activation_while_daemon_down (c : client) (files : list (option string))
  (Hdown : daemon_running c = false) :
  activate_item c (OnPinActivated files) = [] /\
  activate_item c (OnUnpinActivated files) = [] /\
  activate_item c (OnSyncActivated files) = map ActionSyncPath (omap (fun f => f) files).
Proof.
  cbn [activate_item]. split; [|split; [|apply on_sync_activated_paths]].
  - induction files as [|[p|] rest IH];
      cbn [on_pin_activated on_unpin_activated]; [reflexivity| |exact IH].
    unfold lnxdrive_dbus_client_get_file_status. rewrite Hdown. exact IH.
  - induction files as [|[p|] rest IH];
      cbn [on_pin_activated on_unpin_activated]; [reflexivity| |exact IH].
    unfold lnxdrive_dbus_client_get_file_status. rewrite Hdown. exact IH.
Qed.

Lemma activation_while_daemon_down_witness :
  let c := {| files_proxy := Some (mk_proxy None);
              status_cache := <["/home/u/OneDrive/a" := "cloud-only"]>
                              (<["/home/u/OneDrive/b" := "synced"]> ∅);
              sync_root := Some "/home/u/OneDrive"; daemon_running := false;
              invalidate_cb_set := true |} in
  let files := [Some "/home/u/OneDrive/a"; Some "/home/u/OneDrive/b"] in
  daemon_running c = false /\
  activate_item c (OnPinActivated files) = [] /\
  activate_item c (OnUnpinActivated files) = [] /\
  activate_item c (OnSyncActivated files) =
    [ActionSyncPath "/home/u/OneDrive/a"; ActionSyncPath "/home/u/OneDrive/b"].
Proof.
  intros c files. split; [reflexivity|].
  apply (activation_while_daemon_down c files). reflexivity.
Defined.

(** X13: [get_background_items] returns an item only when the daemon is
    running, the folder is not NULL, has a local path and that path is under
    the sync root.  Every item it returns is "LNXDrive::bg_top_menu", which
    has no action, and every item of its submenu is "LNXDrive::sync_folder",
    with no submenu of its own; so "LNXDrive::sync_folder" is the only
    activatable item, and it calls [sync_path] on exactly that folder,
    whatever the client state at activation time. *)
Theorem background_items_sync_folder (c c' : client) (cf : option (option string)) :
  (lnxdrive_menu_provider_get_background_items c cf <> [] <->
   daemon_running c = true /\
   exists fp, cf = Some (Some fp) /\
              path_is_under_sync_root (Some fp) (lnxdrive_dbus_client_get_sync_root c) = true) /\
  (forall it, In it (lnxdrive_menu_provider_get_background_items c cf) ->
   item_name it = "LNXDrive::bg_top_menu" /\ item_activate it = None) /\
  (forall fp it, cf = Some (Some fp) ->
   In it (flat_map item_submenu (lnxdrive_menu_provider_get_background_items c cf)) ->
   item_name it = "LNXDrive::sync_folder" /\ item_submenu it = [] /\
   option_map (activate_item c') (item_activate it) = Some [ActionSyncPath fp]).
Proof.
  unfold lnxdrive_menu_provider_get_background_items, lnxdrive_dbus_client_is_daemon_running.
  destruct cf as [[fp|]|]; cbv zeta.
  - destruct (daemon_running c); cbn [negb].
    + destruct (path_is_under_sync_root (Some fp) (lnxdrive_dbus_client_get_sync_root c))
        eqn:Hu; cbn [negb].
      * split; [|split].
        -- split; [intros _; split; [reflexivity|exists fp; tauto]|discriminate].
        -- intros it [<-|[]]. split; reflexivity.
        -- intros fp' it Hfp Hit. injection Hfp as <-. simpl in Hit.
           destruct Hit as [<-|[]]. split; [|split]; reflexivity.
      * split; [|split].
        -- split; [tauto|]. intros (_ & fp' & Hfp & Hu'). injection Hfp as <-. congruence.
        -- intros it [].
        -- intros fp' it _ [].
    + split; [|split].
      * split; [tauto|]. intros (H & _). discriminate.
      * intros it [].
      * intros fp' it _ [].
  - destruct (daemon_running c); cbn [negb]; split;
      try (split; [tauto|intros (_ & fp' & Hfp & _); discriminate]);
      (split; [intros it []|intros fp' it _ []]).
  - split; [split; [tauto|intros (_ & fp' & Hfp & _); discriminate]|].
    split; [intros it []|intros fp' it _ []].
Qed.

Lemma background_items_sync_folder_witness :
  let c := {| files_proxy := Some (mk_proxy (Some ":1.42"));
              status_cache := ∅; sync_root := Some "/home/u/OneDrive";
              daemon_running := true; invalidate_cb_set := true |} in
  let cf := Some (Some "/home/u/OneDrive/Docs") in
  (lnxdrive_menu_provider_get_background_items c cf <> [] <->
   daemon_running c = true /\
   exists fp, cf = Some (Some fp) /\
              path_is_under_sync_root (Some fp) (lnxdrive_dbus_client_get_sync_root c) = true) /\
  (forall it,
   In it (flat_map item_submenu (lnxdrive_menu_provider_get_background_items c cf)) ->
   item_name it = "LNXDrive::sync_folder" /\ item_submenu it = [] /\
   option_map (activate_item c) (item_activate it) =
     Some [ActionSyncPath "/home/u/OneDrive/Docs"]).
Proof.
  intros c cf. destruct (background_items_sync_folder c c cf) as (H1 & _ & H2).
  split; [exact H1|]. intros it Hit. exact (H2 "/home/u/OneDrive/Docs" it eq_refl Hit).
Defined.

(** X14: an item "Keep Available Offline" or "Free Up Space" that
    [get_file_items] offers makes at least one client call when it is
    activated before the client state changes. *)
Theorem offered_items_make_calls (c : client) (files : list (option string))
  (top : menu_item)
  (Htop : lnxdrive_menu_provider_get_file_items c files = [top]) :
  (In (pin_item files) (item_submenu top) -> activate_item c (OnPinActivated files) <> []) /\
  (In (unpin_item files) (item_submenu top) -> activate_item c (OnUnpinActivated files) <> []).
Proof.
  assert (Hne : files <> []) by (intros ->; discriminate Htop).
  destruct (daemon_running c) eqn:Hrun.
  2:{ unfold lnxdrive_menu_provider_get_file_items in Htop.
      destruct files; [contradiction|].
      unfold lnxdrive_dbus_client_is_daemon_running in Htop. rewrite Hrun in Htop.
      injection Htop as <-. split; intros []. }
  rewrite (get_file_items_running c files Hne Hrun) in Htop.
  destruct (existsb _ files); cbn [negb] in Htop; [|discriminate].
  injection Htop as <-. cbn [item_submenu]. split.
  - intros Hin.
    destruct (existsb (managed_with_status c "cloud-only") files) eqn:Hc.
    + apply existsb_exists in Hc as ([p|] & Hf & Hm); [|discriminate].
      unfold managed_with_status in Hm. apply andb_true_iff in Hm as [_ Hs].
      apply String.eqb_eq in Hs. intros Hnil.
      assert (Hp : In (ActionPinFile p) (activate_item c (OnPinActivated files))).
      { apply on_pin_activated_in. exists p. tauto. }
      rewrite Hnil in Hp. destruct Hp.
    + exfalso. destruct (existsb (managed_with_status c "synced") files);
        simpl in Hin; intuition discriminate.
  - intros Hin.
    destruct (existsb (managed_with_status c "synced") files) eqn:Hc.
    + apply existsb_exists in Hc as ([p|] & Hf & Hm); [|discriminate].
      unfold managed_with_status in Hm. apply andb_true_iff in Hm as [_ Hs].
      apply String.eqb_eq in Hs. intros Hnil.
      assert (Hp : In (ActionUnpinFile p) (activate_item c (OnUnpinActivated files))).
      { apply on_unpin_activated_in. exists p. tauto. }
      rewrite Hnil in Hp. destruct Hp.
    + exfalso. destruct (existsb (managed_with_status c "cloud-only") files);
        simpl in Hin; intuition discriminate.
Qed.

Lemma offered_items_make_calls_witness :
  let c := {| files_proxy := Some (mk_proxy (Some ":1.42"));
              status_cache := <["/home/u/OneDrive/a" := "cloud-only"]>
                              (<["/home/u/OneDrive/b" := "synced"]> ∅);
              sync_root := Some "/home/u/OneDrive"; daemon_running := true;
              invalidate_cb_set := true |} in
  let files := [Some "/home/u/OneDrive/a"; Some "/home/u/OneDrive/b"] in
  let top := MenuItem "LNXDrive::top_menu" "LNXDrive" "LNXDrive file actions"
               (Some "lnxdrive-synced") true None
               [pin_item files; unpin_item files; sync_now_item files] in
  lnxdrive_menu_provider_get_file_items c files = [top] /\
  activate_item c (OnPinActivated files) <> [] /\
  activate_item c (OnUnpinActivated files) <> [].
Proof.
  intros c files top.
  assert (Htop : lnxdrive_menu_provider_get_file_items c files = [top]) by reflexivity.
  destruct (offered_items_make_calls c files top Htop) as [Hpin Hunpin].
  split; [exact Htop|]. split.
  - apply Hpin. left. reflexivity.
  - apply Hunpin. right. left. reflexivity.
Defined.

(** ** Action error reporting, end to end *)

(** X15: when the files proxy is NULL (its creation failed or has not
    finished), every Pin, Unpin or Sync action ends, through its [on_*_done]
    callback, in the generic notification "LNXDrive: Operation Failed" whose
    body names the action and carries "LNXDrive daemon is not available". *)
Theorem action_without_proxy_notifies_unavailable (c : client) (a : client_action)
  (reply : dbus_result unit) (H : files_proxy c = None) :
  client_action_done a (action_outcome c (client_action_call c a) reply) =
    Some (mk_notification "LNXDrive: Operation Failed"
            (operation_failed_body (action_display_name a)
               "LNXDrive daemon is not available")).
Proof.
  destruct a as [p|p|p];
    unfold client_action_call, lnxdrive_dbus_client_pin_file,
      lnxdrive_dbus_client_unpin_file, lnxdrive_dbus_client_sync_path;
    rewrite H; reflexivity.
Qed.

Lemma action_without_proxy_notifies_unavailable_witness :
  files_proxy client_init = None /\
  client_action_done (ActionPinFile "/home/u/OneDrive/a")
    (action_outcome client_init
       (client_action_call client_init (ActionPinFile "/home/u/OneDrive/a")) (DOk tt)) =
    Some (mk_notification "LNXDrive: Operation Failed"
            (operation_failed_body "Keep Available Offline"
               "LNXDrive daemon is not available")).
Proof.
  split; [reflexivity|].
  apply (action_without_proxy_notifies_unavailable client_init
           (ActionPinFile "/home/u/OneDrive/a") (DOk tt)).
  reflexivity.
Defined.

(** X16: when the files proxy exists and the daemon owns the bus name, the
    notification after a Pin, Unpin or Sync action depends only on the
    daemon's reply: none on success, otherwise the one [handle_action_error]
    chooses for the daemon's error under the action's name. *)
Theorem action_with_owner_reports_reply (c : client) (a : client_action)
  (p : dbus_proxy) (o : string) (reply : dbus_result unit)
  (Hp : files_proxy c = Some p) (Ho : proxy_name_owner p = Some o) :
  client_action_done a (action_outcome c (client_action_call c a) reply) =
    match reply with
    | DOk _ => None
    | DErr e => handle_action_error (Some e) (action_display_name a)
    end.
Proof.
  destruct a as [q|q|q];
    unfold client_action_call, lnxdrive_dbus_client_pin_file,
      lnxdrive_dbus_client_unpin_file, lnxdrive_dbus_client_sync_path, action_outcome;
    rewrite Hp; unfold g_dbus_proxy_call_local_failure; rewrite Ho;
    destruct reply; reflexivity.
Qed.

Lemma action_with_owner_reports_reply_witness :
  let c := {| files_proxy := Some (mk_proxy (Some ":1.42"));
              status_cache := ∅; sync_root := Some "/home/u/OneDrive";
              daemon_running := true; invalidate_cb_set := true |} in
  files_proxy c = Some (mk_proxy (Some ":1.42")) /\
  client_action_done (ActionUnpinFile "/home/u/OneDrive/a")
    (action_outcome c (client_action_call c (ActionUnpinFile "/home/u/OneDrive/a"))
       (DErr (DBusRemoteError LNXDRIVE_DBUS_ERROR_FILE_IN_USE "busy"))) =
    Some file_in_use_notification.
Proof.
  intros c. split; [reflexivity|].
  rewrite (action_with_owner_reports_reply c (ActionUnpinFile "/home/u/OneDrive/a")
             (mk_proxy (Some ":1.42")) ":1.42"); reflexivity.
Defined.

(** ** Daemon presence *)

Lemma batch_apply_cache_not_key (dict : list (string * string)) :
  forall (m : gmap string string) (c : client) (q : string),
  ~ In q (map fst dict) ->
  status_cache (snd (batch_apply dict m c)) !! q = status_cache c !! q.
Proof.
  induction dict as [|[k v] rest IH]; intros m c q Hq; simpl in *; [reflexivity|].
  rewrite IH by tauto. simpl. apply lookup_insert_ne. intros ->. tauto.
Qed.

Lemma on_get_config_ready_cache (home : string) (c c' : client) (r : dbus_result string) :
  on_get_config_ready home c r = Some c' -> status_cache c' = status_cache c.
Proof.
  unfold on_get_config_ready. intros H.
  destruct r as [yaml|e]; [destruct (strstr yaml sync_root_key);
    [destruct (expand_sync_root home (raw_sync_root_value _))|]|];
    try discriminate; injection H as <-; reflexivity.
Qed.

Lemma step_keeps_unknown (home : string) (p : string) (c c' : client) (ev : event) :
  supplies_status p ev = false -> cache_reads_unknown p c ->
  step home c ev = Some c' -> cache_reads_unknown p c'.
Proof.
  intros Hsup Hc Hs. unfold cache_reads_unknown in *.
  destruct ev as [r|o|q s|r|r|paths reply|q|q|q|b]; simpl in Hs, Hsup.
  - injection Hs as <-. destruct r; exact Hc.
  - injection Hs as <-. destruct o as [o|]; [exact Hc|].
    intros v. cbn. rewrite lookup_fmap.
    destruct (status_cache c !! p); simpl; intros H; [injection H as <-; reflexivity|discriminate H].
  - injection Hs as <-. intros v. cbn. rewrite lookup_insert_ne; [exact (Hc v)|].
    intros ->. rewrite String.eqb_refl in Hsup. discriminate.
  - injection Hs as <-. destruct r; exact Hc.
  - rewrite (on_get_config_ready_cache home c c' r Hs). exact Hc.
  - unfold lnxdrive_dbus_client_get_batch_file_status in Hs.
    destruct (negb (daemon_running c) || proxy_is_null c || (List.length paths =? 0)%nat).
    + injection Hs as <-. exact Hc.
    + destruct reply as [dict|e]; injection Hs as <-; [|exact Hc].
      intros v. rewrite batch_apply_cache_not_key; [exact (Hc v)|].
      intros Hin. apply in_map_iff in Hin as ([k w] & Hk & Hkin). simpl in Hk. subst k.
      assert (Hex : existsb (fun kv => String.eqb (fst kv) p) dict = true).
      { apply existsb_exists. exists (p, w). split; [exact Hkin|]. apply String.eqb_refl. }
      congruence.
  - injection Hs as <-. exact Hc.
  - injection Hs as <-. exact Hc.
  - injection Hs as <-. exact Hc.
  - injection Hs as <-. exact Hc.
Qed.

Lemma run_keeps_unknown (home : string) (p : string) (evs : list event) :
  forall c c', forallb (fun ev => negb (supplies_status p ev)) evs = true ->
  cache_reads_unknown p c -> run home c evs = Some c' -> cache_reads_unknown p c'.
Proof.
  induction evs as [|ev rest IH]; intros c c' Hno Hc Hrun; simpl in *.
  - injection Hrun as <-. exact Hc.
  - apply andb_prop in Hno as [Hev Hrest]. apply negb_true_iff in Hev.
    destruct (step home c ev) as [c1|] eqn:E; [|discriminate].
    exact (IH c1 c' Hrest (step_keeps_unknown home p c c1 ev Hev Hc E) Hrun).
Qed.

Lemma get_file_status_cache_unknown (p : string) (c : client) :
  cache_reads_unknown p c -> lnxdrive_dbus_client_get_file_status c (Some p) = "unknown".
Proof.
  intros Hc. unfold lnxdrive_dbus_client_get_file_status.
  destruct (daemon_running c); [|reflexivity]. simpl.
  destruct (status_cache c !! p) as [v|] eqn:E; [exact (Hc v E)|reflexivity].
Qed.

(** X17: when the daemon leaves the bus and comes back, the client is marked
    running again and asks for the sync root, but the cache keeps the keys
    it had, all rewritten to "unknown": along any later sequence of events
    with no FileStatusChanged signal for [p] and no successful batch reply
    naming [p], [get_file_status p] reads "unknown". *)
Theorem daemon_return_keeps_invalidated (home : string) (c : client) (o : string) :
  let c1 := fst (on_name_owner_changed c None) in
  let r := on_name_owner_changed c1 (Some o) in
  daemon_running (fst r) = true /\ In FetchSyncRoot (snd r) /\
  dom (status_cache (fst r)) = dom (status_cache c) /\
  (forall p evs c2, forallb (fun ev => negb (supplies_status p ev)) evs = true ->
     run home (fst r) evs = Some c2 ->
     lnxdrive_dbus_client_get_file_status c2 (Some p) = "unknown").
Proof.
  cbv zeta. split; [reflexivity|]. split; [left; reflexivity|]. split.
  - apply dom_fmap_L.
  - intros p evs c2 Hno Hrun. apply get_file_status_cache_unknown.
    refine (run_keeps_unknown home p evs _ c2 Hno _ Hrun).
    intros v. cbn. rewrite lookup_fmap.
    destruct (status_cache c !! p); simpl; intros H; [injection H as <-; reflexivity|discriminate H].
Qed.

(** ** Invariant of the running client *)

Lemma on_get_config_ready_fields (home : string) (c c' : client) (r : dbus_result string) :
  on_get_config_ready home c r = Some c' ->
  files_proxy c' = files_proxy c /\ daemon_running c' = daemon_running c /\
  invalidate_cb_set c' = invalidate_cb_set c.
Proof.
  unfold on_get_config_ready. intros H.
  destruct r as [yaml|e]; [destruct (strstr yaml sync_root_key);
    [destruct (expand_sync_root home (raw_sync_root_value _))|]|];
    try discriminate; injection H as <-; auto.
Qed.

Lemma batch_apply_invalidate (dict : list (string * string)) :
  forall (m : gmap string string) (c : client),
  invalidate_cb_set (snd (batch_apply dict m c)) = invalidate_cb_set c.
Proof. induction dict as [|[k v] rest IH]; intros m c; simpl; [|rewrite IH]; reflexivity. Qed.

(** The events other than the proxy's creation, its owner change and the
    installation of the callback keep the proxy, the running flag and the
    callback. *)
Lemma step_other_fields (home : string) (c c' : client) (ev : event) :
  step home c ev = Some c' ->
  match ev with
  | EvProxyReady _ | EvNameOwnerChanged _ | EvSetInvalidateFunc _ => False
  | _ => True
  end ->
  files_proxy c' = files_proxy c /\ daemon_running c' = daemon_running c /\
  invalidate_cb_set c' = invalidate_cb_set c.
Proof.
  intros Hs Hev.
  destruct ev as [r|o|p s|r|r|paths reply|p|p|p|b]; try contradiction;
    unfold step in Hs; cbv beta iota in Hs.
  - injection Hs as <-. auto.
  - destruct r; injection Hs as <-; auto.
  - exact (on_get_config_ready_fields home c c' r Hs).
  - unfold lnxdrive_dbus_client_get_batch_file_status in Hs.
    destruct (negb (daemon_running c) || proxy_is_null c || (List.length paths =? 0)%nat);
      cbv beta iota in Hs; [injection Hs as <-; auto|].
    destruct reply as [dict|e]; injection Hs as <-; [|auto].
    destruct (batch_apply_fields dict ∅ c) as (H1 & _ & H3).
    rewrite H1, H3, batch_apply_invalidate. auto.
  - injection Hs as <-. auto.
  - injection Hs as <-. auto.
  - injection Hs as <-. auto.
Qed.

Lemma reachable_running_proxy (home : string) (c : client) :
  reachable home c -> daemon_running c = true -> files_proxy c <> None.
Proof.
  induction 1 as [|c ev c' Hr IH Hdel Hs]; [discriminate|].
  destruct ev as [r|o|p s|r|r|paths reply|p|p|p|b];
    try (destruct (step_other_fields home c c' _ Hs I) as (-> & -> & _); exact IH).
  - unfold step in Hs. cbv beta iota in Hs. injection Hs as <-.
    destruct r as [p|e]; cbn.
    + intros _. discriminate.
    + intros Hrun. exfalso. cbn in Hdel. unfold proxy_is_null in Hdel.
      destruct (files_proxy c); [discriminate|]. apply IH; [exact Hrun|reflexivity].
  - unfold step in Hs. cbv beta iota in Hs. injection Hs as <-.
    cbn in Hdel. unfold proxy_is_null in Hdel.
    destruct (files_proxy c) eqn:Hp; [|discriminate].
    destruct o; cbn; rewrite Hp; discriminate.
  - unfold step in Hs. cbv beta iota in Hs. injection Hs as <-. exact IH.
Qed.

(** X18: in every state the client reaches from [lnxdrive_dbus_client_init]
    through the callbacks and calls of its API (the proxy being created once,
    and owner changes arriving only on an existing proxy),
    [daemon_running] TRUE implies that the files proxy exists; so while the
    client reports the daemon running, Pin, Unpin and Sync always hand their
    method call to GDBus instead of failing locally. *)
Theorem reachable_running_has_proxy (home : string) (c : client)
  (Hr : reachable home c) (Hrun : daemon_running c = true) :
  (exists p, files_proxy c = Some p) /\
  forall a, issues_remote_call (client_action_call c a) = true.
Proof.
  pose proof (reachable_running_proxy home c Hr Hrun) as Hp.
  destruct (files_proxy c) as [p|] eqn:Hfp; [|contradiction].
  split; [exists p; reflexivity|].
  intros [q|q|q]; unfold client_action_call, lnxdrive_dbus_client_pin_file,
    lnxdrive_dbus_client_unpin_file, lnxdrive_dbus_client_sync_path;
    rewrite Hfp; reflexivity.
Qed.

Lemma reachable_running_has_proxy_witness :
  let c := fst (on_proxy_ready client_init (DOk (mk_proxy (Some ":1.42")))) in
  reachable "/home/u" c /\ daemon_running c = true /\
  (exists p, files_proxy c = Some p) /\
  forall a, issues_remote_call (client_action_call c a) = true.
Proof.
  intros c.
  assert (Hr : reachable "/home/u" c).
  { apply (reachable_step "/home/u" client_init
             (EvProxyReady (DOk (mk_proxy (Some ":1.42")))) c);
      [apply reachable_init|reflexivity|reflexivity]. }
  split; [exact Hr|]. split; [reflexivity|].
  apply (reachable_running_has_proxy "/home/u" c Hr). reflexivity.
Defined.

(** ** Batch query replies *)

(** X19: when [get_batch_file_status] does send GetBatchFileStatus, an error
    reply (including a timeout after 5000 ms) yields an empty table and leaves
    the instance, hence the cache, unchanged. *)
Theorem batch_error_reply_changes_nothing (c : client) (paths : list string)
  (Hrun : daemon_running c = true) (Hp : files_proxy c <> None) (Hne : paths <> []) :
  exists k,
    lnxdrive_dbus_client_get_batch_file_status c paths =
      Remote "GetBatchFileStatus" paths 5000%N k /\
    forall e, k (DErr e) = (∅, c).
Proof.
  unfold lnxdrive_dbus_client_get_batch_file_status, proxy_is_null. rewrite Hrun.
  destruct (files_proxy c); [|contradiction].
  destruct paths; [contradiction|]. cbn [negb orb List.length Nat.eqb].
  eexists. split; [reflexivity|]. intros e. reflexivity.
Qed.

Lemma batch_error_reply_changes_nothing_witness :
  let c := {| files_proxy := Some (mk_proxy (Some ":1.42"));
              status_cache := <["/home/u/OneDrive/a" := "synced"]> ∅;
              sync_root := Some "/home/u/OneDrive"; daemon_running := true;
              invalidate_cb_set := true |} in
  daemon_running c = true /\ files_proxy c <> None /\ ["/home/u/OneDrive/a"] <> [] /\
  exists k,
    lnxdrive_dbus_client_get_batch_file_status c ["/home/u/OneDrive/a"] =
      Remote "GetBatchFileStatus" ["/home/u/OneDrive/a"] 5000%N k /\
    forall e, k (DErr e) = (∅, c).
Proof.
  intros c. split; [reflexivity|]. split; [discriminate|]. split; [discriminate|].
  apply (batch_error_reply_changes_nothing c ["/home/u/OneDrive/a"]);
    [reflexivity|discriminate|discriminate].
Defined.

Lemma batch_apply_dom (dict : list (string * string)) :
  forall (m : gmap string string) (c : client),
  dom (fst (batch_apply dict m c)) = dom m ∪ list_to_set (map fst dict) /\
  dom (status_cache (snd (batch_apply dict m c))) =
    dom (status_cache c) ∪ list_to_set (map fst dict).
Proof.
  induction dict as [|[k v] rest IH]; intros m c; simpl.
  - split; set_solver.
  - destruct (IH (<[k:=v]> m) (set_cache c (<[k:=v]> (status_cache c)))) as [H1 H2].
    rewrite H1, H2. simpl. rewrite !dom_insert_L. split; set_solver.
Qed.


(** X20: a successful GetBatchFileStatus reply changes only what it names:
    the returned table has exactly the reply's paths as keys, the cache gains
    exactly these keys, the cache entry of every other path is unchanged, and
    the proxy, sync root, running flag and callback are untouched. *)
Theorem batch_reply_touches_only_its_keys (c : client) (paths : list string)
  (m : string) (args : list string) (t : N)
  (k : dbus_result (list (string * string)) -> gmap string string * client)
  (H : lnxdrive_dbus_client_get_batch_file_status c paths = Remote m args t k)
  (dict : list (string * string)) :
  let r := k (DOk dict) in
  dom (fst r) = list_to_set (map fst dict) /\
  dom (status_cache (snd r)) = dom (status_cache c) ∪ list_to_set (map fst dict) /\
  (forall q, ~ In q (map fst dict) -> status_cache (snd r) !! q = status_cache c !! q) /\
  files_proxy (snd r) = files_proxy c /\ sync_root (snd r) = sync_root c /\
  daemon_running (snd r) = daemon_running c /\
  invalidate_cb_set (snd r) = invalidate_cb_set c.
Proof.
  unfold lnxdrive_dbus_client_get_batch_file_status in H.
  destruct (negb (daemon_running c) || proxy_is_null c || (List.length paths =? 0)%nat);
    [discriminate|].
  injection H as _ _ _ <-. cbv zeta beta iota.
  destruct (batch_apply_dom dict ∅ c) as [H1 H2].
  destruct (batch_apply_fields dict ∅ c) as (H3 & H4 & H5).
  split; [rewrite H1, dom_empty_L; set_solver|]. split; [exact H2|].
  split; [intros q Hq; apply batch_apply_cache_not_key; exact Hq|].
  split; [exact H3|]. split; [exact H4|]. split; [exact H5|].
  apply batch_apply_invalidate.
Qed.

Lemma batch_reply_touches_only_its_keys_witness :
  let c := {| files_proxy := Some (mk_proxy (Some ":1.42"));
              status_cache := <["/home/u/OneDrive/b" := "syncing"]> ∅;
              sync_root := Some "/home/u/OneDrive"; daemon_running := true;
              invalidate_cb_set := true |} in
  exists k,
    lnxdrive_dbus_client_get_batch_file_status c ["/home/u/OneDrive/a"] =
      Remote "GetBatchFileStatus" ["/home/u/OneDrive/a"] 5000%N k /\
    status_cache (snd (k (DOk [("/home/u/OneDrive/a", "synced")]))) !! "/home/u/OneDrive/b"
      = Some "syncing".
Proof.
  intros c. eexists. split; [reflexivity|].
  match goal with
  | |- context [snd (?k0 (DOk ?d))] =>
      destruct (batch_reply_touches_only_its_keys c ["/home/u/OneDrive/a"]
                  "GetBatchFileStatus" ["/home/u/OneDrive/a"] 5000%N k0 eq_refl d)
        as (_ & _ & Hq & _)
  end.
  rewrite Hq; [reflexivity|]. simpl. intros [H|[]]. discriminate H.
Defined.

(** ** Sync root and the providers *)





(** ** Module entry point *)

Lemma step_keeps_invalidate (home : string) (c c' : client) (ev : event) :
  (forall b, ev <> EvSetInvalidateFunc b) ->
  step home c ev = Some c' -> invalidate_cb_set c' = invalidate_cb_set c.
Proof.
  intros Hev Hs. destruct ev as [r|o|p s|r|r|paths reply|p|p|p|b];
    try (exact (proj2 (proj2 (step_other_fields home c c' _ Hs I)))).
  - unfold step in Hs. cbv beta iota in Hs. injection Hs as <-.
    destruct r; reflexivity.
  - unfold step in Hs. cbv beta iota in Hs. injection Hs as <-.
    destruct o; reflexivity.
  - exfalso. exact (Hev b eq_refl).
Qed.

Lemma run_keeps_invalidate (home : string) (evs : list event) :
  forall c c', (forall b, ~ In (EvSetInvalidateFunc b) evs) ->
  run home c evs = Some c' -> invalidate_cb_set c' = invalidate_cb_set c.
Proof.
  induction evs as [|ev rest IH]; intros c c' Hno Hrun; simpl in Hrun.
  - injection Hrun as <-. reflexivity.
  - destruct (step home c ev) as [c1|] eqn:Hs; [|discriminate].
    rewrite (IH c1 c'); [|intros b Hb; apply (Hno b); right; exact Hb|exact Hrun].
    apply (step_keeps_invalidate home c c1 ev); [|exact Hs].
    intros b ->. apply (Hno b). left. reflexivity.
Qed.

(** X22: once [nautilus_module_initialize] has run (with or without an
    existing client instance), as long as no other invalidation function is
    installed, every FileStatusChanged signal and every change of the
    daemon's presence asks for a view invalidation. *)
Theorem module_init_keeps_invalidation (home : string) (inst : option client)
    (evs : list event) (c0 c : client)
  (Hinit : nautilus_module_initialize inst = Some c0)
  (Hrun : run home c0 evs = Some c)
  (Hno : forall b, ~ In (EvSetInvalidateFunc b) evs) :
  (forall p s, In InvalidateDisplay (snd (on_file_status_changed c p s))) /\
  (forall o, In InvalidateDisplay (snd (on_name_owner_changed c o))).
Proof.
  assert (Hset : invalidate_cb_set c = true).
  { rewrite (run_keeps_invalidate home evs c0 c Hno Hrun).
    unfold nautilus_module_initialize in Hinit.
    destruct (lnxdrive_dbus_client_get_default inst) as [c1 i1].
    injection Hinit as <-. reflexivity. }
  destruct c as [fp sc sr dr ic]. cbn in Hset. subst ic.
  split.
  - intros p s. right. left. reflexivity.
  - intros [o|]; [right|]; left; reflexivity.
Qed.

Lemma module_init_keeps_invalidation_witness :
  let evs := [EvProxyReady (DOk (mk_proxy (Some ":1.42")));
              EvFileStatusChanged "/home/u/OneDrive/a" "synced"] in
  exists c0 c,
    nautilus_module_initialize None = Some c0 /\
    run "/home/u" c0 evs = Some c /\
    (forall p s, In InvalidateDisplay (snd (on_file_status_changed c p s))) /\
    (forall o, In InvalidateDisplay (snd (on_name_owner_changed c o))).
Proof.
  intros evs.
  pose (c0 := lnxdrive_dbus_client_set_invalidate_func client_init true).
  pose (c := match run "/home/u" c0 evs with Some c => c | None => c0 end).
  exists c0, c. split; [reflexivity|]. split; [reflexivity|].
  apply (module_init_keeps_invalidation "/home/u" None evs c0 c); [reflexivity|reflexivity|].
  intros b [H|[H|[]]]; discriminate H.
Defined.
